(** * course-correct: availability, booking and study-group route handlers

    A shallow embedding of the Express route handlers of the backend
    (routes/tutor/tutor.js, routes/tutorBooking/tutorBooking.js and
    routes/studyGroup/studyGroup.js) over an explicit document store, and
    the properties of the conflict checks, the status guard and the
    membership guard.

    Conventions of the embedding.
    - A Mongoose collection is a finite map from [_id] to document.
    - A handler is a function from the authenticated user ([req.user]),
      the route parameter, the request body and the store to the store
      after the request and the response sent.  A handler that returns
      early keeps the writes it has already made.
    - Instants are milliseconds since the epoch, as the numeric value of a
      JavaScript [Date]; time strings of requests and documents are taken
      as the instant [new Date(s)] they denote.
    - An optional body field is an [option]; JavaScript truthiness of the
      supplied value is kept ([truthy]).
    - Storage calls succeed; the [catch] branches (500) are not reached. *)

From stdpp Require Import base option list strings gmap sorting.
From Stdlib Require Import ZArith Lia.

Local Open Scope string_scope.
Local Open Scope list_scope.
Local Open Scope Z_scope.

(** ** Identifiers, principals and responses *)

(** A Mongo [ObjectId]; only equality is used. *)
Abbreviation ObjectId := nat.

(** [req.user], attached by the authentication middleware. *)
Record AuthUser := mkAuthUser { id : ObjectId; role : string }.

(** JavaScript truthiness of a string value: the empty string is falsy. *)
Definition truthy (s : string) : bool :=
  match s with EmptyString => false | String _ _ => true end.

(** [if (field) ...] for an optional string field of a request body. *)
Definition supplied (o : option string) : bool :=
  match o with Some s => truthy s | None => false end.

(** ** Documents *)

Module User.
Record t := mk {
  tutoringAvailability : list ObjectId;
  joinedStudyGroups : list ObjectId }.
End User.

Module Availability.
Record t := mk {
  tutor : ObjectId;
  day : Z;
  subject : string;
  startTime : Z;
  endTime : Z;
  isActive : bool }.
End Availability.

Module TutorBooking.
Record t := mk {
  student : ObjectId;
  tutor : ObjectId;
  subject : string;
  bookingTime : Z;
  status : string }.
End TutorBooking.

Module StudyGroup.
Record t := mk {
  title : string;
  subject : string;
  description : string;
  date : string;
  time : string;
  duration : Z;
  creator : ObjectId;
  participants : list ObjectId }.
End StudyGroup.

(** The document store.  [nextId] stands for the driver's generation of a
    fresh [_id] for a new document. *)
Record DB := mkDB {
  users : gmap nat User.t;
  availabilities : gmap nat Availability.t;
  tutorBookings : gmap nat TutorBooking.t;
  studyGroups : gmap nat StudyGroup.t;
  nextId : ObjectId }.

Definition with_users (f : gmap nat User.t → gmap nat User.t) (db : DB) : DB :=
  mkDB (f (users db)) (availabilities db) (tutorBookings db) (studyGroups db)
       (nextId db).

Definition with_availabilities
    (f : gmap nat Availability.t → gmap nat Availability.t) (db : DB) : DB :=
  mkDB (users db) (f (availabilities db)) (tutorBookings db) (studyGroups db)
       (nextId db).

Definition with_tutorBookings
    (f : gmap nat TutorBooking.t → gmap nat TutorBooking.t) (db : DB) : DB :=
  mkDB (users db) (availabilities db) (f (tutorBookings db)) (studyGroups db)
       (nextId db).

Definition with_studyGroups
    (f : gmap nat StudyGroup.t → gmap nat StudyGroup.t) (db : DB) : DB :=
  mkDB (users db) (availabilities db) (tutorBookings db) (f (studyGroups db))
       (nextId db).

Definition fresh_id (db : DB) : ObjectId * DB :=
  (nextId db,
   mkDB (users db) (availabilities db) (tutorBookings db) (studyGroups db)
        (S (nextId db))).

(** ** Responses *)

(** The JSON body of a response. *)
Inductive Json :=
  | Message (message : string)
  | StartAfter (subject : string) (earliestAvailableStartTime : Z)
      (* `The start time for ${subject} must be after ${earliest...}.` *)
  | Slots (message : string) (slots : list ObjectId)
  | AvailabilityDoc (a : Availability.t)
  | BookingDoc (b : TutorBooking.t)
  | GroupDoc (g : StudyGroup.t)
  | GroupMessage (message : string) (studyGroup : StudyGroup.t).

(** [res.status(code).json(body)] *)
Record Response := Res { code : nat; body : Json }.

(** ** Time *)

Definition msPerDay : Z := 86400000.

(** Local midnight of the calendar day of instant [t]; [tz] is the offset of
    the server's local time from UTC in milliseconds. *)
Definition startOfLocalDay (tz t : Z) : Z :=
  ((t + tz) `div` msPerDay) * msPerDay - tz.

(** [new Date(t).setHours(h, m, s, ms)]: the same local calendar day with
    the time of day replaced; the result is the numeric instant. *)
Definition setHours (tz t h m s ms : Z) : Z :=
  startOfLocalDay tz t + h * 3600000 + m * 60000 + s * 1000 + ms.

(** ** routes/tutor/tutor.js *)

Module TutorRoutes.

(** One element of [req.body.availability]. *)
Record SlotReq := mkSlotReq {
  day : Z;
  subject : string;
  startTime : Z;
  endTime : Z }.

(** [Availability.find({ tutor, day }).sort({ startTime: 1 })]: the slots
    of the tutor's day in ascending [startTime].  The order among slots
    with equal [startTime] is that of the sort, as in the database. *)
Definition byStartTime (x y : ObjectId * Availability.t) : Prop :=
  Availability.startTime x.2 ≤ Availability.startTime y.2.

#[global] Instance byStartTime_dec : RelDecision byStartTime :=
  λ x y, decide (Availability.startTime x.2 ≤ Availability.startTime y.2).

Definition findSortedForDay (tutorId : ObjectId) (day : Z)
    (m : gmap nat Availability.t) : list (ObjectId * Availability.t) :=
  merge_sort byStartTime
    (filter (λ x, Availability.tutor x.2 = tutorId ∧ Availability.day x.2 = day)
            (map_to_list m)).

(** [let earliestAvailableStartTime = startTime;
     if (existingAvailability.length > 0) {
       const lastSlot = existingAvailability[existingAvailability.length - 1];
       earliestAvailableStartTime = lastSlot.endTime; }] *)
Definition earliestAvailableStartTime
    (existingAvailability : list (ObjectId * Availability.t)) (startTime : Z) : Z :=
  match last existingAvailability with
  | Some lastSlot => Availability.endTime lastSlot.2
  | None => startTime
  end.

(** [new Availability({...}).save()] *)
Definition saveNew (a : Availability.t) (db : DB) : ObjectId * DB :=
  let '(_id, db) := fresh_id db in
  (_id, with_availabilities (insert _id a) db).

(** The [for (let slot of availability)] loop.  [inl] is an early
    [return res.status(...)]: the slots saved by earlier iterations stay
    in the store. *)
Fixpoint addSlots (now : Z) (tutorId : ObjectId) (availability : list SlotReq)
    (createdSlots : list ObjectId) (db : DB) : DB * (Response + list ObjectId) :=
  match availability with
  | [] => (db, inr createdSlots)
  | slot :: rest =>
      let startDate := startTime slot in
      if decide (startDate < now) then
        (db, inl (Res 400 (Message "Start time cannot be in the past")))
      else
        let existingAvailability :=
          findSortedForDay tutorId (day slot) (availabilities db) in
        let earliest :=
          earliestAvailableStartTime existingAvailability (startTime slot) in
        if decide (startDate < earliest) then
          (db, inl (Res 400 (StartAfter (subject slot) earliest)))
        else
          let '(_id, db) :=
            saveNew (Availability.mk tutorId (day slot) (subject slot)
                       (startTime slot) (endTime slot) true) db in
          addSlots now tutorId rest (createdSlots ++ [_id]) db
  end.

(** [User.findByIdAndUpdate(tutorId,
      { $push: { tutoringAvailability: { $each: createdSlots } } })] *)
Definition pushTutoringAvailability (tutorId : ObjectId)
    (createdSlots : list ObjectId) : DB → DB :=
  with_users (alter (λ u, User.mk (User.tutoringAvailability u ++ createdSlots)
                                  (User.joinedStudyGroups u)) tutorId).

(** POST /api/tutors/availability; [now] is the clock read by [new Date()]. *)
Definition postAvailability (now : Z) (user : AuthUser)
    (availability : list SlotReq) (db : DB) : DB * Response :=
  if decide (role user ≠ "tutor") then
    (db, Res 403 (Message "Only tutors can add availability"))
  else
    let tutorId := id user in
    match addSlots now tutorId availability [] db with
    | (db, inl early) => (db, early)
    | (db, inr createdSlots) =>
        (pushTutoringAvailability tutorId createdSlots db,
         Res 201 (Slots "Availability added successfully" createdSlots))
    end.

(** [TutorBooking.find({ tutor, bookingTime: { $gte: lo, $lt: hi } })] *)
Definition findBookings (tutorId : ObjectId) (gte lt : Z)
    (m : gmap nat TutorBooking.t) : list (ObjectId * TutorBooking.t) :=
  filter (λ x, TutorBooking.tutor x.2 = tutorId
               ∧ gte ≤ TutorBooking.bookingTime x.2
               ∧ TutorBooking.bookingTime x.2 < lt)
         (map_to_list m).

(** [req.body] of PATCH /availability/:id. *)
Record PatchReq := mkPatchReq {
  p_subject : option string;
  p_startTime : option Z;
  p_endTime : option Z;
  p_disableDay : bool;
  p_isActive : option bool }.

(** [if (subject) availability.subject = subject; ...
     if (isActive !== undefined) availability.isActive = isActive;] *)
Definition applyPatch (req : PatchReq) (a : Availability.t) : Availability.t :=
  Availability.mk (Availability.tutor a) (Availability.day a)
    (if supplied (p_subject req) then default (Availability.subject a) (p_subject req)
     else Availability.subject a)
    (default (Availability.startTime a) (p_startTime req))
    (default (Availability.endTime a) (p_endTime req))
    (default (Availability.isActive a) (p_isActive req)).

(** [Availability.updateMany({ tutor, day }, { $set: { isActive: false } })] *)
Definition disableSlot (tutorId : ObjectId) (day : Z) (a : Availability.t)
    : Availability.t :=
  if decide (Availability.tutor a = tutorId ∧ Availability.day a = day) then
    Availability.mk (Availability.tutor a) (Availability.day a)
      (Availability.subject a) (Availability.startTime a)
      (Availability.endTime a) false
  else a.

(** PATCH /api/tutors/availability/:id; [tz] is the server's local-time
    offset used by [setHours]. *)
Definition patchAvailability (tz : Z) (user : AuthUser)
    (availabilityId : ObjectId) (req : PatchReq) (db : DB) : DB * Response :=
  if decide (role user ≠ "tutor") then
    (db, Res 403 (Message "Only tutors can update availability"))
  else
    match availabilities db !! availabilityId with
    | None => (db, Res 404 (Message "Availability not found"))
    | Some availability =>
        let bookingsForSlot :=
          findBookings (id user) (Availability.startTime availability)
            (Availability.endTime availability) (tutorBookings db) in
        if decide (0 < length bookingsForSlot)%nat then
          (db, Res 400 (Message
             "Cannot update this availability as it is already booked"))
        else if p_disableDay req then
          let bookingsForDay :=
            findBookings (id user) (Availability.day availability)
              (setHours tz (Availability.day availability) 23 59 59 999)
              (tutorBookings db) in
          if decide (length bookingsForDay = 0%nat) then
            (with_availabilities
               (fmap (disableSlot (id user) (Availability.day availability))) db,
             Res 200 (Message
               "All availability slots for this day have been disabled"))
          else
            (db, Res 400 (Message
               "You have bookings for this day, you cannot disable it"))
        else
          let availability := applyPatch req availability in
          (with_availabilities (insert availabilityId availability) db,
           Res 200 (AvailabilityDoc availability))
    end.

(** DELETE /api/tutors/availability/:id *)
Definition deleteAvailability (user : AuthUser) (availabilityId : ObjectId)
    (db : DB) : DB * Response :=
  if decide (role user ≠ "tutor") then
    (db, Res 403 (Message "Only tutors can delete availability"))
  else
    match availabilities db !! availabilityId with
    | None => (db, Res 404 (Message "Availability not found"))
    | Some availability =>
        let bookingsForSlot :=
          findBookings (id user) (Availability.startTime availability)
            (Availability.endTime availability) (tutorBookings db) in
        if decide (0 < length bookingsForSlot)%nat then
          (db, Res 400 (Message
             "Cannot delete availability, there are bookings for this slot"))
        else
          (with_availabilities (delete availabilityId) db,
           Res 200 (Message "Availability deleted successfully"))
    end.

End TutorRoutes.

(** ** routes/tutorBooking/tutorBooking.js *)

Module BookingRoutes.

(** [req.body] of POST /api/bookings. *)
Record PostReq := mkPostReq {
  tutor : ObjectId;
  subject : string;
  bookingTime : Z }.

(** POST /api/bookings *)
Definition postBooking (user : AuthUser) (req : PostReq) (db : DB)
    : DB * Response :=
  if decide (role user ≠ "student") then
    (db, Res 403 (Message "Only students can book tutors"))
  else
    let booking :=
      TutorBooking.mk (id user) (tutor req) (subject req) (bookingTime req)
        "pending" in
    let '(_id, db) := fresh_id db in
    (with_tutorBookings (insert _id booking) db, Res 201 (BookingDoc booking)).

(** [req.body] of PATCH /api/bookings/:id. *)
Record PatchReq := mkPatchReq {
  p_status : option string;
  p_bookingTime : option Z }.

(** [booking.status = status] *)
Definition setStatus (status : string) (b : TutorBooking.t) : TutorBooking.t :=
  TutorBooking.mk (TutorBooking.student b) (TutorBooking.tutor b)
    (TutorBooking.subject b) (TutorBooking.bookingTime b) status.

(** [booking.bookingTime = bookingTime] *)
Definition setBookingTime (t : Z) (b : TutorBooking.t) : TutorBooking.t :=
  TutorBooking.mk (TutorBooking.student b) (TutorBooking.tutor b)
    (TutorBooking.subject b) t (TutorBooking.status b).

(** The [if (status) { ... }] block; [inl] is an early return. *)
Definition statusUpdate (user : AuthUser) (status : option string)
    (booking : TutorBooking.t) : Response + TutorBooking.t :=
  match status with
  | None => inr booking
  | Some status =>
      if truthy status then
        if decide (status ∉ ["confirmed"; "completed"; "cancelled"]) then
          inl (Res 400 (Message "Invalid status update"))
        else if decide (role user = "tutor") then
          if decide (status = "confirmed" ∨ status = "completed") then
            inr (setStatus status booking)
          else
            inl (Res 403 (Message "Tutors cannot cancel student bookings"))
        else if decide (role user = "student") then
          if decide (status = "cancelled") then
            inr (setStatus status booking)
          else
            inl (Res 403 (Message "Students can only cancel bookings"))
        else inr booking
      else inr booking
  end.

(** PATCH /api/bookings/:id *)
Definition patchBooking (user : AuthUser) (bookingId : ObjectId)
    (req : PatchReq) (db : DB) : DB * Response :=
  match tutorBookings db !! bookingId with
  | None => (db, Res 404 (Message "Booking not found"))
  | Some booking =>
      match statusUpdate user (p_status req) booking with
      | inl early => (db, early)
      | inr booking =>
          let booking :=
            match p_bookingTime req with
            | Some bookingTime => setBookingTime bookingTime booking
            | None => booking
            end in
          (with_tutorBookings (insert bookingId booking) db,
           Res 200 (BookingDoc booking))
      end
  end.

End BookingRoutes.

(** ** routes/studyGroup/studyGroup.js *)

Module StudyGroupRoutes.

(** [User.findByIdAndUpdate(id, { $push: { joinedStudyGroups: g } })] *)
Definition pushJoined (userId g : ObjectId) : DB → DB :=
  with_users (alter (λ u, User.mk (User.tutoringAvailability u)
                                  (User.joinedStudyGroups u ++ [g])) userId).

(** [User.findByIdAndUpdate(id, { $pull: { joinedStudyGroups: g } })]:
    every occurrence of [g] is removed. *)
Definition pullJoined (userId g : ObjectId) : DB → DB :=
  with_users (alter (λ u, User.mk (User.tutoringAvailability u)
                            (filter (λ x, x ≠ g) (User.joinedStudyGroups u)))
                    userId).

Definition setParticipants (ps : list ObjectId) (g : StudyGroup.t)
    : StudyGroup.t :=
  StudyGroup.mk (StudyGroup.title g) (StudyGroup.subject g)
    (StudyGroup.description g) (StudyGroup.date g) (StudyGroup.time g)
    (StudyGroup.duration g) (StudyGroup.creator g) ps.

(** [req.body] of POST /api/studyGroups. *)
Record PostReq := mkPostReq {
  title : string;
  subject : string;
  description : string;
  date : string;
  time : string;
  duration : Z }.

(** POST /api/studyGroups *)
Definition postStudyGroup (user : AuthUser) (req : PostReq) (db : DB)
    : DB * Response :=
  if decide (role user ≠ "student") then
    (db, Res 403 (Message "Only students can create study groups"))
  else
    let studyGroup :=
      StudyGroup.mk (title req) (subject req) (description req) (date req)
        (time req) (duration req) (id user) [id user] in
    let '(_id, db) := fresh_id db in
    let db := with_studyGroups (insert _id studyGroup) db in
    (pushJoined (id user) _id db, Res 201 (GroupDoc studyGroup)).

(** POST /api/studyGroups/:id/join *)
Definition joinStudyGroup (user : AuthUser) (groupId : ObjectId) (db : DB)
    : DB * Response :=
  match studyGroups db !! groupId with
  | None => (db, Res 404 (Message "Study group not found"))
  | Some studyGroup =>
      if decide (role user ≠ "student") then
        (db, Res 403 (Message "Only students can join study groups"))
      else if decide (StudyGroup.creator studyGroup = id user) then
        (db, Res 400 (Message "You are the creator, not a participant"))
      else if decide (id user ∈ StudyGroup.participants studyGroup) then
        (db, Res 400 (Message "You are already a participant"))
      else
        let studyGroup :=
          setParticipants (StudyGroup.participants studyGroup ++ [id user])
            studyGroup in
        let db := with_studyGroups (insert groupId studyGroup) db in
        (pushJoined (id user) groupId db,
         Res 200 (GroupMessage "Joined study group successfully" studyGroup))
  end.

(** POST /api/studyGroups/:id/leave *)
Definition leaveStudyGroup (user : AuthUser) (groupId : ObjectId) (db : DB)
    : DB * Response :=
  match studyGroups db !! groupId with
  | None => (db, Res 404 (Message "Study group not found"))
  | Some studyGroup =>
      if decide (role user ≠ "student") then
        (db, Res 403 (Message "Only students can leave study groups"))
      else if decide (StudyGroup.creator studyGroup = id user) then
        (db, Res 400 (Message "Creator cannot leave their own study group"))
      else if decide (id user ∉ StudyGroup.participants studyGroup) then
        (db, Res 400 (Message "You are not a participant"))
      else
        let studyGroup :=
          setParticipants
            (filter (λ participant, participant ≠ id user)
                    (StudyGroup.participants studyGroup))
            studyGroup in
        let db := with_studyGroups (insert groupId studyGroup) db in
        (pullJoined (id user) groupId db,
         Res 200 (GroupMessage "Left study group successfully" studyGroup))
  end.

(** [req.body] of PATCH /api/studyGroups/:id.  [duration] is a number:
    [0] is falsy. *)
Record PatchReq := mkPatchReq {
  p_subject : option string;
  p_description : option string;
  p_date : option string;
  p_time : option string;
  p_duration : option Z }.

(** [if (subject) studyGroup.subject = subject;
     if (description !== undefined) studyGroup.description = description;
     if (date) ...; if (time) ...; if (duration) ...] *)
Definition applyPatch (req : PatchReq) (g : StudyGroup.t) : StudyGroup.t :=
  StudyGroup.mk (StudyGroup.title g)
    (if supplied (p_subject req)
     then default (StudyGroup.subject g) (p_subject req)
     else StudyGroup.subject g)
    (default (StudyGroup.description g) (p_description req))
    (if supplied (p_date req)
     then default (StudyGroup.date g) (p_date req)
     else StudyGroup.date g)
    (if supplied (p_time req)
     then default (StudyGroup.time g) (p_time req)
     else StudyGroup.time g)
    (match p_duration req with
     | Some d => if decide (d = 0) then StudyGroup.duration g else d
     | None => StudyGroup.duration g
     end)
    (StudyGroup.creator g) (StudyGroup.participants g).

(** PATCH /api/studyGroups/:id *)
Definition patchStudyGroup (user : AuthUser) (groupId : ObjectId)
    (req : PatchReq) (db : DB) : DB * Response :=
  match studyGroups db !! groupId with
  | None => (db, Res 404 (Message "Study group not found"))
  | Some studyGroup =>
      if decide (StudyGroup.creator studyGroup ≠ id user) then
        (db, Res 403 (Message "Only the creator can update the study group"))
      else if bool_decide (1 < length (StudyGroup.participants studyGroup))%nat
              && (supplied (p_subject req) || supplied (p_date req)
                  || supplied (p_time req)) then
        (db, Res 400 (Message
           "Cannot change subject, date, or time once participants have joined. You can only modify the duration and description."))
      else
        let studyGroup := applyPatch req studyGroup in
        (with_studyGroups (insert groupId studyGroup) db,
         Res 200 (GroupMessage "Study group updated successfully" studyGroup))
  end.

(** DELETE /api/studyGroups/:id *)
Definition deleteStudyGroup (user : AuthUser) (groupId : ObjectId) (db : DB)
    : DB * Response :=
  match studyGroups db !! groupId with
  | None => (db, Res 404 (Message "Study group not found"))
  | Some studyGroup =>
      if decide (StudyGroup.creator studyGroup ≠ id user) then
        (db, Res 403 (Message "Only the creator can delete the study group"))
      else
        let otherParticipants :=
          filter (λ participant, participant ≠ id user)
                 (StudyGroup.participants studyGroup) in
        if decide (0 < length otherParticipants)%nat then
          (db, Res 400 (Message
             "Cannot delete the study group as there are other participants."))
        else
          let db := pullJoined (StudyGroup.creator studyGroup) groupId db in
          (with_studyGroups (delete groupId) db,
           Res 200 (Message "Study group deleted successfully"))
  end.

End StudyGroupRoutes.

(** ** Predicates used by the statements *)

(** [hasBookingConflict(tutorId, windowStart, windowEnd)]: some booking of
    the tutor has its [bookingTime] in the half-open window. *)
Definition hasBooking (m : gmap nat TutorBooking.t) (tutorId : ObjectId)
    (windowStart windowEnd : Z) : Prop :=
  ∃ i b, m !! i = Some b ∧ TutorBooking.tutor b = tutorId
         ∧ windowStart ≤ TutorBooking.bookingTime b
         ∧ TutorBooking.bookingTime b < windowEnd.

(** The tutor has a slot on that day. *)
Definition hasSlot (m : gmap nat Availability.t) (tutorId : ObjectId) (day : Z)
    : Prop :=
  ∃ i a, m !! i = Some a ∧ Availability.tutor a = tutorId
         ∧ Availability.day a = day.

(** [x] is a latest slot of the tutor's day: a stored slot of that day whose
    [startTime] no other slot of the day exceeds. *)
Definition latestSlot (m : gmap nat Availability.t) (tutorId : ObjectId)
    (day : Z) (x : ObjectId * Availability.t) : Prop :=
  m !! x.1 = Some x.2 ∧ Availability.tutor x.2 = tutorId
  ∧ Availability.day x.2 = day
  ∧ ∀ i a, m !! i = Some a → Availability.tutor a = tutorId →
           Availability.day a = day →
           Availability.startTime a ≤ Availability.startTime x.2.

(** The slot document that POST /availability stores for a request. *)
Definition slotOf (tutorId : ObjectId) (slot : TutorRoutes.SlotReq)
    : Availability.t :=
  Availability.mk tutorId (TutorRoutes.day slot) (TutorRoutes.subject slot)
    (TutorRoutes.startTime slot) (TutorRoutes.endTime slot) true.

(** The slot [a] as it would be if [owner] had created it. *)
Definition setTutor (owner : ObjectId) (a : Availability.t) : Availability.t :=
  Availability.mk owner (Availability.day a) (Availability.subject a)
    (Availability.startTime a) (Availability.endTime a)
    (Availability.isActive a).

(** The calendar-day window of the spec, closed at 23:59:59.999: some
    booking of the tutor lies in [[day 00:00:00.000, day 23:59:59.999]]. *)
Definition hasBookingOnDay (m : gmap nat TutorBooking.t) (tz : Z)
    (tutorId : ObjectId) (day : Z) : Prop :=
  ∃ i b, m !! i = Some b ∧ TutorBooking.tutor b = tutorId
         ∧ startOfLocalDay tz day ≤ TutorBooking.bookingTime b
         ∧ TutorBooking.bookingTime b ≤ setHours tz day 23 59 59 999.

(** ** Sample data *)

Module Sample.
Definition h (hours minutes : Z) : Z := hours * 3600000 + minutes * 60000.

Definition tutor1 := mkAuthUser 1 "tutor".
Definition tutor2 := mkAuthUser 2 "tutor".
Definition student3 := mkAuthUser 3 "student".
Definition student4 := mkAuthUser 4 "student".

(** Tutor 1 offers 09:00-10:00 on day 0 (slot 10). *)
Definition slot10 := Availability.mk 1 0 "Math" (h 9 0) (h 10 0) true.

Definition userDocs : gmap nat User.t :=
  {[ 1%nat := User.mk [10%nat] []; 2%nat := User.mk [] [];
     3%nat := User.mk [] []; 4%nat := User.mk [] [] ]}.

Definition oneSlot : DB :=
  mkDB userDocs {[ 10%nat := slot10 ]} ∅ ∅ 100.

(** Student 3 booked tutor 1 at 09:30 on day 0 (booking 20). *)
Definition booking20 := TutorBooking.mk 3 1 "Math" (h 9 30) "pending".
Definition booked : DB :=
  mkDB userDocs {[ 10%nat := slot10 ]} {[ 20%nat := booking20 ]} ∅ 100.

(** The same booking, completed. *)
Definition completed20 := TutorBooking.mk 3 1 "Math" (h 9 30) "completed".
Definition completed : DB :=
  mkDB userDocs {[ 10%nat := slot10 ]} {[ 20%nat := completed20 ]} ∅ 100.

(** From [oneSlot], student 3 books tutor 1 at 23:59:59.999 of day 0. *)
Definition lateBooking : DB :=
  (BookingRoutes.postBooking student3
     (BookingRoutes.mkPostReq 1 "Math" 86399999) oneSlot).1.

(** A store without slots, and the request of tutor 1 for 09:00-10:00. *)
Definition noSlots : DB :=
  mkDB {[ 1%nat := User.mk [] []; 3%nat := User.mk [] [] ]} ∅ ∅ ∅ 100.
Definition nineToTen :=
  TutorRoutes.mkSlotReq 0 "Math" (h 9 0) (h 10 0).

(** Group 30 of student 3 with participants 3 and 4. *)
Definition group30 :=
  StudyGroup.mk "Algebra" "Math" "Weekly" "2030-01-07" "18:00" 60 3
    [3%nat; 4%nat].
Definition twoMembers : DB :=
  mkDB {[ 3%nat := User.mk [] [30%nat]; 4%nat := User.mk [] [30%nat] ]}
       ∅ ∅ {[ 30%nat := group30 ]} 100.

(** Group 31 of student 3 alone. *)
Definition group31 :=
  StudyGroup.mk "Algebra" "Math" "Weekly" "2030-01-07" "18:00" 60 3 [3%nat].
Definition oneMember : DB :=
  mkDB {[ 3%nat := User.mk [] [31%nat]; 4%nat := User.mk [] [] ]}
       ∅ ∅ {[ 31%nat := group31 ]} 100.
End Sample.

(** ** The read routes of routes/tutor/tutor.js *)

(** GET /api/tutors/availability: [Availability.find({ tutor: req.user.id })],
    sent with [res.json] (status 200); [inl] is the 403 answer. *)
Definition getAvailability (user : AuthUser) (db : DB)
    : Response + list (ObjectId * Availability.t) :=
  if decide (role user ≠ "tutor") then
    inl (Res 403 (Message "Only tutors can view availability"))
  else
    inr (filter (λ x, Availability.tutor x.2 = id user)
                (map_to_list (availabilities db))).

(** [.sort({ day: 1, startTime: 1 })]: by day, then by start time. *)
Definition byDayThenStartTime (x y : ObjectId * Availability.t) : Prop :=
  Availability.day x.2 < Availability.day y.2
  ∨ (Availability.day x.2 = Availability.day y.2
     ∧ Availability.startTime x.2 ≤ Availability.startTime y.2).

#[global] Instance byDayThenStartTime_dec : RelDecision byDayThenStartTime :=
  λ x y, decide (Availability.day x.2 < Availability.day y.2
                 ∨ (Availability.day x.2 = Availability.day y.2
                    ∧ Availability.startTime x.2 ≤ Availability.startTime y.2)).

(** GET /api/tutors/availability/all:
    [Availability.find({ isActive: true }).populate(...).sort({ day: 1,
    startTime: 1 })].  The slots are returned with their [tutor] reference;
    the name, subjects and grade level that [populate] copies from the
    user document are not part of the store modelled here. *)
Definition getAllAvailability (user : AuthUser) (db : DB)
    : Response + list (ObjectId * Availability.t) :=
  if decide (role user ≠ "student") then
    inl (Res 403 (Message "Only students can view all tutors' availability"))
  else
    inr (merge_sort byDayThenStartTime
           (filter (λ x, Availability.isActive x.2 = true)
                   (map_to_list (availabilities db)))).

(** ** The write routes as mounted by server.js *)

(** A request to one of the routes that write to the store. *)
Inductive Request :=
  | PostAvailability (availability : list TutorRoutes.SlotReq)
  | PatchAvailability (availabilityId : ObjectId) (req : TutorRoutes.PatchReq)
  | DeleteAvailability (availabilityId : ObjectId)
  | PostBooking (req : BookingRoutes.PostReq)
  | PatchBooking (bookingId : ObjectId) (req : BookingRoutes.PatchReq)
  | PostStudyGroup (req : StudyGroupRoutes.PostReq)
  | JoinStudyGroup (groupId : ObjectId)
  | LeaveStudyGroup (groupId : ObjectId)
  | PatchStudyGroup (groupId : ObjectId) (req : StudyGroupRoutes.PatchReq)
  | DeleteStudyGroup (groupId : ObjectId).

(** [app.use("/api/tutors", tutorRoutes); app.use("/api/bookings",
    bookingRoutes); app.use("/api/studyGroups", studyGroupRoutes)]: the
    request is handed to its route handler.  [now] is the clock and [tz]
    the local-time offset of the server. *)
Definition handle (now tz : Z) (user : AuthUser) (r : Request) (db : DB)
    : DB * Response :=
  match r with
  | PostAvailability availability =>
      TutorRoutes.postAvailability now user availability db
  | PatchAvailability availabilityId req =>
      TutorRoutes.patchAvailability tz user availabilityId req db
  | DeleteAvailability availabilityId =>
      TutorRoutes.deleteAvailability user availabilityId db
  | PostBooking req => BookingRoutes.postBooking user req db
  | PatchBooking bookingId req => BookingRoutes.patchBooking user bookingId req db
  | PostStudyGroup req => StudyGroupRoutes.postStudyGroup user req db
  | JoinStudyGroup groupId => StudyGroupRoutes.joinStudyGroup user groupId db
  | LeaveStudyGroup groupId => StudyGroupRoutes.leaveStudyGroup user groupId db
  | PatchStudyGroup groupId req =>
      StudyGroupRoutes.patchStudyGroup user groupId req db
  | DeleteStudyGroup groupId => StudyGroupRoutes.deleteStudyGroup user groupId db
  end.

(** ** Invariants of the store *)

(** Identifiers not yet generated name no document: a new document never
    replaces an existing one. *)
Definition freshIds (db : DB) : Prop :=
  ∀ i, (nextId db ≤ i)%nat →
    availabilities db !! i = None ∧ tutorBookings db !! i = None
    ∧ studyGroups db !! i = None.

(** The creator of every group is among its participants. *)
Definition creatorParticipates (db : DB) : Prop :=
  ∀ i g, studyGroups db !! i = Some g →
    StudyGroup.creator g ∈ StudyGroup.participants g.

(** No group lists a participant twice. *)
Definition participantsNoDup (db : DB) : Prop :=
  ∀ i g, studyGroups db !! i = Some g → NoDup (StudyGroup.participants g).

(** The back-references agree with the groups: a user document lists a
    group exactly when that group exists and has the user as participant. *)
Definition joinedConsistent (db : DB) : Prop :=
  ∀ u doc gid, users db !! u = Some doc →
    (gid ∈ User.joinedStudyGroups doc
     ↔ ∃ g, studyGroups db !! gid = Some g ∧ u ∈ StudyGroup.participants g).

(** Every booking carries one of the four statuses. *)
Definition statusesKnown (db : DB) : Prop :=
  ∀ i b, tutorBookings db !! i = Some b →
    TutorBooking.status b ∈ ["pending"; "confirmed"; "completed"; "cancelled"].

(** A request with its requester and the clock at its arrival. *)
Record Call := mkCall { c_now : Z; c_user : AuthUser; c_request : Request }.

(** The store after a sequence of requests, served one after the other. *)
Fixpoint serve (tz : Z) (calls : list Call) (db : DB) : DB :=
  match calls with
  | [] => db
  | c :: calls =>
      serve tz calls (handle (c_now c) tz (c_user c) (c_request c) db).1
  end.

(** A store before any slot, booking or group was written: the three
    collections are empty and no user document lists a group. *)
Definition initial (db : DB) : Prop :=
  availabilities db = ∅ ∧ tutorBookings db = ∅ ∧ studyGroups db = ∅
  ∧ ∀ u doc, users db !! u = Some doc → User.joinedStudyGroups doc = [].

(** ** Further sample data *)

Module Scenario.
(** Two requests for day 0: 09:00-10:00 and 09:30-10:30. *)
Definition nineThirty :=
  TutorRoutes.mkSlotReq 0 "Biology" (Sample.h 9 30) (Sample.h 10 30).

(** A slot of yesterday, as seen at 08:00 of day 0. *)
Definition yesterday :=
  TutorRoutes.mkSlotReq (-86400000) "Math" (-3600000) 0.

(** A requester whose role is neither tutor nor student. *)
Definition admin5 := mkAuthUser 5 "admin".

(** [Sample.oneMember] with student 4 in group 31. *)
Definition joined : DB :=
  (StudyGroupRoutes.joinStudyGroup Sample.student4 31%nat Sample.oneMember).1.


(** A body that moves a slot to 07:00 and renames its subject. *)
Definition moveToSeven :=
  TutorRoutes.mkPatchReq (Some "Chess") (Some (Sample.h 7 0)) None false None.
End Scenario.

(** ** Properties of the queries *)

Lemma findBookings_nonempty (m : gmap nat TutorBooking.t) tutorId lo hi :
  (0 < length (TutorRoutes.findBookings tutorId lo hi m))%nat
  ↔ hasBooking m tutorId lo hi.
Proof.
  unfold TutorRoutes.findBookings, hasBooking. split.
  - intros Hlen.
    destruct (filter _ (map_to_list m)) as [|[i b] l] eqn:E;
      [simpl in Hlen; lia|].
    assert (Hin : (i, b) ∈ (i, b) :: l) by left.
    rewrite <- E in Hin.
    apply list_elem_of_filter in Hin as [(?&?&?) Hin].
    apply elem_of_map_to_list in Hin. exists i, b. auto.
  - intros (i & b & Hl & Ht & Hlo & Hhi).
    apply elem_of_map_to_list in Hl.
    assert (Hin : (i, b) ∈ filter
              (λ x : nat * TutorBooking.t, TutorBooking.tutor x.2 = tutorId
                 ∧ lo ≤ TutorBooking.bookingTime x.2
                 ∧ TutorBooking.bookingTime x.2 < hi) (map_to_list m))
      by (apply list_elem_of_filter; simpl; auto).
    destruct (filter _ (map_to_list m)); [by apply elem_of_nil in Hin|].
    simpl; lia.
Qed.

#[local] Instance byStartTime_transitive : Transitive TutorRoutes.byStartTime.
Proof. unfold TutorRoutes.byStartTime. intros x y z ? ?. lia. Qed.

#[local] Instance byStartTime_total : Total TutorRoutes.byStartTime.
Proof. unfold TutorRoutes.byStartTime. intros x y. lia. Qed.

Lemma findSortedForDay_elem (m : gmap nat Availability.t) tutorId day x :
  x ∈ TutorRoutes.findSortedForDay tutorId day m
  ↔ m !! x.1 = Some x.2 ∧ Availability.tutor x.2 = tutorId
    ∧ Availability.day x.2 = day.
Proof.
  unfold TutorRoutes.findSortedForDay.
  rewrite merge_sort_Permutation, list_elem_of_filter.
  destruct x as [i a]; simpl. rewrite elem_of_map_to_list. tauto.
Qed.

(** The element read at [existingAvailability.length - 1] is a latest slot
    of the day. *)
Lemma lastSlot_latest (m : gmap nat Availability.t) tutorId day lastSlot :
  last (TutorRoutes.findSortedForDay tutorId day m) = Some lastSlot →
  latestSlot m tutorId day lastSlot.
Proof.
  intros Hlast.
  pose proof (StronglySorted_merge_sort TutorRoutes.byStartTime
    (filter (λ x : nat * Availability.t, Availability.tutor x.2 = tutorId
               ∧ Availability.day x.2 = day) (map_to_list m))) as Hsorted.
  fold (TutorRoutes.findSortedForDay tutorId day m) in Hsorted.
  apply last_Some in Hlast as [front Hfront].
  assert (Hmem : lastSlot ∈ TutorRoutes.findSortedForDay tutorId day m)
    by (rewrite Hfront; apply elem_of_app; right; left).
  apply findSortedForDay_elem in Hmem as (Hl & Ht & Hd).
  repeat split; try done.
  intros i a Hi Hta Hda.
  assert (Hin : (i, a) ∈ TutorRoutes.findSortedForDay tutorId day m)
    by (apply findSortedForDay_elem; auto).
  rewrite Hfront in Hin, Hsorted.
  apply elem_of_app in Hin as [Hin | Hin].
  - apply (StronglySorted_app_1_elem_of _ _ _ (i, a) lastSlot) in Hsorted;
      [exact Hsorted | done | left].
  - apply list_elem_of_singleton in Hin. subst lastSlot. simpl. lia.
Qed.

(** A tutor with a slot on the day has a last slot in the sorted result. *)
Lemma hasSlot_last (m : gmap nat Availability.t) tutorId day :
  hasSlot m tutorId day →
  ∃ lastSlot, last (TutorRoutes.findSortedForDay tutorId day m) = Some lastSlot.
Proof.
  intros (i & a & Hi & Ht & Hd).
  apply last_is_Some. intros Hnil.
  assert (Hin : (i, a) ∈ TutorRoutes.findSortedForDay tutorId day m)
    by (apply findSortedForDay_elem; auto).
  rewrite Hnil in Hin. by apply elem_of_nil in Hin.
Qed.

(** ** POST /api/tutors/availability: the ordering check *)

(** The first iteration of the loop, on a slot that is not in the past:
    the outcome is decided by [earliestAvailableStartTime] alone. *)
Lemma postAvailability_single (now : Z) (user : AuthUser)
    (slot : TutorRoutes.SlotReq) (db : DB) :
  role user = "tutor" →
  now ≤ TutorRoutes.startTime slot →
  let earliest :=
    TutorRoutes.earliestAvailableStartTime
      (TutorRoutes.findSortedForDay (id user) (TutorRoutes.day slot)
         (availabilities db))
      (TutorRoutes.startTime slot) in
  TutorRoutes.postAvailability now user [slot] db =
    if decide (TutorRoutes.startTime slot < earliest) then
      (db, Res 400 (StartAfter (TutorRoutes.subject slot) earliest))
    else
      (TutorRoutes.pushTutoringAvailability (id user) [nextId db]
         (with_availabilities (insert (nextId db) (slotOf (id user) slot))
            (fresh_id db).2),
       Res 201 (Slots "Availability added successfully" [nextId db])).
Proof.
  intros Hrole Hnow earliest.
  unfold TutorRoutes.postAvailability.
  destruct (decide (role user ≠ "tutor")) as [Hne | _]; [congruence|].
  simpl. destruct (decide (TutorRoutes.startTime slot < now)) as [? | _];
    [lia|].
  fold earliest.
  destruct (decide (TutorRoutes.startTime slot < earliest)); reflexivity.
Qed.

(** A slot whose start is before the clock is refused first, whatever the
    stored slots are. *)
Lemma postAvailability_past (now : Z) (user : AuthUser)
    (slot : TutorRoutes.SlotReq) (rest : list TutorRoutes.SlotReq) (db : DB) :
  role user = "tutor" →
  TutorRoutes.startTime slot < now →
  TutorRoutes.postAvailability now user (slot :: rest) db =
    (db, Res 400 (Message "Start time cannot be in the past")).
Proof.
  intros Hrole Hpast. unfold TutorRoutes.postAvailability.
  destruct (decide (role user ≠ "tutor")) as [Hne | _]; [congruence|].
  simpl. destruct (decide (TutorRoutes.startTime slot < now)); [done | lia].
Qed.

(** C1, as stated, fails: tutor 1 has the slot 09:00-10:00 on day 0 and, at
    11:00, posts 10:30-11:30 for that day.  The start is not before the
    floor 10:00, yet the request is refused (400, start time in the past)
    and nothing is stored. *)
Lemma C1_counterexample :
  ¬ (∀ (now : Z) (user : AuthUser) (slot : TutorRoutes.SlotReq) (db : DB)
       (lastSlot : ObjectId * Availability.t),
       role user = "tutor" →
       last (TutorRoutes.findSortedForDay (id user) (TutorRoutes.day slot)
               (availabilities db)) = Some lastSlot →
       Availability.endTime lastSlot.2 ≤ TutorRoutes.startTime slot →
       code (TutorRoutes.postAvailability now user [slot] db).2 = 201%nat).
Proof.
  intros H.
  specialize (H (Sample.h 11 0) Sample.tutor1
    (TutorRoutes.mkSlotReq 0 "Biology" (Sample.h 10 30) (Sample.h 11 30))
    Sample.oneSlot (10%nat, Sample.slot10)).
  vm_compute in H.
  specialize (H eq_refl eq_refl ltac:(discriminate)). discriminate H.
Qed.

(** C1 (amended).  A tutor who has a slot on the day posts one new slot.
    The slot read as [lastSlot] is a latest slot of that day (no slot of the
    day starts later) and its [endTime] is the only stored value consulted:
    - a start before the current instant is refused with 400 (start time in
      the past) whatever the floor is;
    - otherwise a start before that floor is refused with 400 and the
      message citing the floor, the store unchanged;
    - otherwise (start at or after the floor) the slot is accepted: 201, the
      slot stored under a new id and the id appended to the tutor's list. *)
Theorem C1_floor_is_last_slot_end (now : Z) (user : AuthUser)
    (slot : TutorRoutes.SlotReq) (db : DB) :
  role user = "tutor" →
  hasSlot (availabilities db) (id user) (TutorRoutes.day slot) →
  ∃ lastSlot,
    last (TutorRoutes.findSortedForDay (id user) (TutorRoutes.day slot)
            (availabilities db)) = Some lastSlot
    ∧ latestSlot (availabilities db) (id user) (TutorRoutes.day slot) lastSlot
    ∧ (TutorRoutes.startTime slot < now →
       TutorRoutes.postAvailability now user [slot] db =
         (db, Res 400 (Message "Start time cannot be in the past")))
    ∧ (now ≤ TutorRoutes.startTime slot →
       TutorRoutes.startTime slot < Availability.endTime lastSlot.2 →
       TutorRoutes.postAvailability now user [slot] db =
         (db, Res 400 (StartAfter (TutorRoutes.subject slot)
                         (Availability.endTime lastSlot.2))))
    ∧ (now ≤ TutorRoutes.startTime slot →
       Availability.endTime lastSlot.2 ≤ TutorRoutes.startTime slot →
       TutorRoutes.postAvailability now user [slot] db =
         (TutorRoutes.pushTutoringAvailability (id user) [nextId db]
            (with_availabilities (insert (nextId db) (slotOf (id user) slot))
               (fresh_id db).2),
          Res 201 (Slots "Availability added successfully" [nextId db]))).
Proof.
  intros Hrole Hslot.
  destruct (hasSlot_last _ _ _ Hslot) as [lastSlot Hlast].
  exists lastSlot. split; [exact Hlast|].
  split; [by apply lastSlot_latest|].
  split; [intros; by apply postAvailability_past|].
  split; intros Hnow Hcmp;
    rewrite (postAvailability_single now user slot db Hrole Hnow);
    unfold TutorRoutes.earliestAvailableStartTime; rewrite Hlast;
    destruct (decide _); (done || lia).
Qed.

Lemma C1_floor_is_last_slot_end_witness :
  role Sample.tutor1 = "tutor"
  ∧ hasSlot (availabilities Sample.oneSlot) 1 0
  ∧ code (TutorRoutes.postAvailability (Sample.h 8 0) Sample.tutor1
            [TutorRoutes.mkSlotReq 0 "Biology" (Sample.h 10 0) (Sample.h 11 0)]
            Sample.oneSlot).2 = 201%nat.
Proof.
  assert (Hrole : role Sample.tutor1 = "tutor") by reflexivity.
  assert (Hslot : hasSlot (availabilities Sample.oneSlot) 1 0).
  { exists 10%nat, Sample.slot10. repeat split; reflexivity. }
  split; [exact Hrole|]. split; [exact Hslot|].
  destruct (C1_floor_is_last_slot_end (Sample.h 8 0) Sample.tutor1
              (TutorRoutes.mkSlotReq 0 "Biology" (Sample.h 10 0) (Sample.h 11 0))
              Sample.oneSlot Hrole Hslot)
    as (lastSlot & Hlast & _ & _ & _ & Haccept).
  vm_compute in Hlast. injection Hlast as <-.
  rewrite Haccept; [reflexivity | vm_compute; discriminate ..].
Defined.

(** ** PATCH /api/bookings/:id: the status guard *)

Lemma elem_of_statuses (s : string) :
  s ∈ ["confirmed"; "completed"; "cancelled"]
  ↔ s = "confirmed" ∨ s = "completed" ∨ s = "cancelled".
Proof. rewrite !elem_of_cons, elem_of_nil. tauto. Qed.

(** A permitted (role, target) pair writes the target, whatever the booking
    held before. *)
Lemma statusUpdate_permitted (user : AuthUser) (target : string)
    (booking : TutorBooking.t) :
  (role user = "tutor" ∧ (target = "confirmed" ∨ target = "completed"))
  ∨ (role user = "student" ∧ target = "cancelled") →
  BookingRoutes.statusUpdate user (Some target) booking
  = inr (BookingRoutes.setStatus target booking).
Proof.
  unfold BookingRoutes.statusUpdate.
  intros [[-> [-> | ->]] | [-> ->]]; reflexivity.
Qed.

(** Without a status in the body the handler saves the booking, with the
    new time when one is given. *)
Lemma patchBooking_time_only (user : AuthUser) (bookingId : ObjectId)
    (t : Z) (db : DB) (b : TutorBooking.t) :
  tutorBookings db !! bookingId = Some b →
  BookingRoutes.patchBooking user bookingId
    (BookingRoutes.mkPatchReq None (Some t)) db
  = (with_tutorBookings (insert bookingId (BookingRoutes.setBookingTime t b)) db,
     Res 200 (BookingDoc (BookingRoutes.setBookingTime t b))).
Proof. intros Hb. unfold BookingRoutes.patchBooking. by rewrite Hb. Qed.

(** C2, as stated, fails: booking 20 is completed; student 3 sends
    [{ status: cancelled }] and the stored status becomes cancelled. *)
Lemma C2_counterexample :
  ¬ (∀ (user : AuthUser) (bookingId : ObjectId) (req : BookingRoutes.PatchReq)
       (db : DB) (b b' : TutorBooking.t),
       tutorBookings db !! bookingId = Some b →
       TutorBooking.status b = "completed" ∨ TutorBooking.status b = "cancelled" →
       tutorBookings (BookingRoutes.patchBooking user bookingId req db).1
         !! bookingId = Some b' →
       TutorBooking.status b' = TutorBooking.status b).
Proof.
  intros H.
  specialize (H Sample.student3 20%nat
    (BookingRoutes.mkPatchReq (Some "cancelled") None) Sample.completed
    Sample.completed20 (BookingRoutes.setStatus "cancelled" Sample.completed20)
    eq_refl (or_introl eq_refl) eq_refl).
  discriminate H.
Qed.

(** C2 (amended).  The handler never reads the current status, so completed
    and cancelled are not terminal: for a booking in any status, a tutor's
    update to confirmed or completed and a student's update to cancelled
    succeed (200) and store the target status. *)
Theorem C2_update_from_any_status (user : AuthUser) (bookingId : ObjectId)
    (req : BookingRoutes.PatchReq) (db : DB) (b : TutorBooking.t)
    (target : string) :
  tutorBookings db !! bookingId = Some b →
  BookingRoutes.p_status req = Some target →
  (role user = "tutor" ∧ (target = "confirmed" ∨ target = "completed"))
  ∨ (role user = "student" ∧ target = "cancelled") →
  ∃ b',
    BookingRoutes.patchBooking user bookingId req db
    = (with_tutorBookings (insert bookingId b') db, Res 200 (BookingDoc b'))
    ∧ TutorBooking.status b' = target.
Proof.
  intros Hb Hreq Hok. unfold BookingRoutes.patchBooking.
  rewrite Hb, Hreq, (statusUpdate_permitted _ _ _ Hok).
  destruct (BookingRoutes.p_bookingTime req); eexists; split; reflexivity.
Qed.

Lemma C2_update_from_any_status_witness :
  tutorBookings Sample.completed !! 20%nat = Some Sample.completed20
  ∧ ∃ b',
      tutorBookings
        (BookingRoutes.patchBooking Sample.student3 20%nat
           (BookingRoutes.mkPatchReq (Some "cancelled") None)
           Sample.completed).1 !! 20%nat = Some b'
      ∧ TutorBooking.status b' = "cancelled".
Proof.
  split; [reflexivity|].
  destruct (C2_update_from_any_status Sample.student3 20%nat
              (BookingRoutes.mkPatchReq (Some "cancelled") None)
              Sample.completed Sample.completed20 "cancelled"
              eq_refl eq_refl (or_intror (conj eq_refl eq_refl)))
    as (b' & Hrun & Hstatus).
  exists b'. split; [|exact Hstatus].
  rewrite Hrun. simpl. apply lookup_insert_eq.
Defined.

(** The three outcomes of the status block for a non-empty status. *)
Lemma statusUpdate_invalid (user : AuthUser) (s : string)
    (booking : TutorBooking.t) :
  truthy s = true →
  s ∉ ["confirmed"; "completed"; "cancelled"] →
  BookingRoutes.statusUpdate user (Some s) booking
  = inl (Res 400 (Message "Invalid status update")).
Proof.
  intros Ht Hs. unfold BookingRoutes.statusUpdate. rewrite Ht.
  by destruct (decide (s ∉ ["confirmed"; "completed"; "cancelled"])).
Qed.

Lemma statusUpdate_tutor_cancel (user : AuthUser) (booking : TutorBooking.t) :
  role user = "tutor" →
  BookingRoutes.statusUpdate user (Some "cancelled") booking
  = inl (Res 403 (Message "Tutors cannot cancel student bookings")).
Proof. unfold BookingRoutes.statusUpdate. by intros ->. Qed.

Lemma statusUpdate_student_other (user : AuthUser) (s : string)
    (booking : TutorBooking.t) :
  role user = "student" →
  s = "confirmed" ∨ s = "completed" →
  BookingRoutes.statusUpdate user (Some s) booking
  = inl (Res 403 (Message "Students can only cancel bookings")).
Proof. unfold BookingRoutes.statusUpdate. by intros -> [-> | ->]. Qed.

(** The response of PATCH /bookings/:id when the status block returns
    early, and its code when it does not. *)
Lemma patchBooking_early (user : AuthUser) (bookingId : ObjectId)
    (req : BookingRoutes.PatchReq) (db : DB) (b : TutorBooking.t)
    (early : Response) :
  tutorBookings db !! bookingId = Some b →
  BookingRoutes.statusUpdate user (BookingRoutes.p_status req) b = inl early →
  BookingRoutes.patchBooking user bookingId req db = (db, early).
Proof. intros Hb He. unfold BookingRoutes.patchBooking. by rewrite Hb, He. Qed.

Lemma patchBooking_saved (user : AuthUser) (bookingId : ObjectId)
    (req : BookingRoutes.PatchReq) (db : DB) (b b' : TutorBooking.t) :
  tutorBookings db !! bookingId = Some b →
  BookingRoutes.statusUpdate user (BookingRoutes.p_status req) b = inr b' →
  code (BookingRoutes.patchBooking user bookingId req db).2 = 200%nat.
Proof.
  intros Hb He. unfold BookingRoutes.patchBooking. rewrite Hb, He.
  by destruct (BookingRoutes.p_bookingTime req).
Qed.

(** C3, as stated, fails: a body whose status field is the empty string
    supplies a status that is none of the three, yet the request succeeds
    with 200 (the [if (status)] test is false for it). *)
Lemma C3_counterexample :
  ¬ (∀ (user : AuthUser) (bookingId : ObjectId) (req : BookingRoutes.PatchReq)
       (db : DB) (b : TutorBooking.t) (s : string),
       tutorBookings db !! bookingId = Some b →
       BookingRoutes.p_status req = Some s →
       s ∉ ["confirmed"; "completed"; "cancelled"] →
       code (BookingRoutes.patchBooking user bookingId req db).2 = 400%nat).
Proof.
  intros H.
  specialize (H Sample.student3 20%nat
    (BookingRoutes.mkPatchReq (Some EmptyString) None) Sample.booked
    Sample.booking20 EmptyString eq_refl eq_refl).
  assert (Hs : EmptyString ∉ ["confirmed"; "completed"; "cancelled"]).
  { rewrite elem_of_statuses. intros [? | [? | ?]]; discriminate. }
  specialize (H Hs). discriminate H.
Qed.

(** C3 (amended).  A PATCH of an existing booking supplies a non-empty
    status.  A status outside confirmed, completed, cancelled is refused
    with 400.  For a tutor the request succeeds exactly when the target is
    confirmed or completed, and cancelled is refused with 403; for a
    student it succeeds exactly when the target is cancelled, and confirmed
    or completed is refused with 403.  A refused request leaves the store
    unchanged. *)
Theorem C3_status_guard (user : AuthUser) (bookingId : ObjectId)
    (req : BookingRoutes.PatchReq) (db : DB) (b : TutorBooking.t) (s : string) :
  tutorBookings db !! bookingId = Some b →
  BookingRoutes.p_status req = Some s →
  truthy s = true →
  let run := BookingRoutes.patchBooking user bookingId req db in
  (s ∉ ["confirmed"; "completed"; "cancelled"] →
   run = (db, Res 400 (Message "Invalid status update")))
  ∧ (role user = "tutor" →
     s ∈ ["confirmed"; "completed"; "cancelled"] →
     (code run.2 = 200%nat ↔ s = "confirmed" ∨ s = "completed")
     ∧ (s = "cancelled" →
        run = (db, Res 403 (Message "Tutors cannot cancel student bookings"))))
  ∧ (role user = "student" →
     s ∈ ["confirmed"; "completed"; "cancelled"] →
     (code run.2 = 200%nat ↔ s = "cancelled")
     ∧ (s = "confirmed" ∨ s = "completed" →
        run = (db, Res 403 (Message "Students can only cancel bookings")))).
Proof.
  intros Hb Hreq Ht run. subst run. split; [|split].
  - intros Hs. apply (patchBooking_early _ _ _ _ b); [done|].
    rewrite Hreq. by apply statusUpdate_invalid.
  - intros Hrole Hs.
    assert (Hcancel : s = "cancelled" →
      BookingRoutes.patchBooking user bookingId req db
      = (db, Res 403 (Message "Tutors cannot cancel student bookings"))).
    { intros ->. apply (patchBooking_early _ _ _ _ b); [done|].
      rewrite Hreq. by apply statusUpdate_tutor_cancel. }
    split; [|exact Hcancel].
    apply elem_of_statuses in Hs. split.
    + intros Hcode. destruct Hs as [? | [? | Hc]]; [tauto | tauto |].
      rewrite (Hcancel Hc) in Hcode. discriminate Hcode.
    + intros Hok. apply (patchBooking_saved _ _ _ _ b
        (BookingRoutes.setStatus s b)); [done|].
      rewrite Hreq. apply statusUpdate_permitted. tauto.
  - intros Hrole Hs.
    assert (Hother : s = "confirmed" ∨ s = "completed" →
      BookingRoutes.patchBooking user bookingId req db
      = (db, Res 403 (Message "Students can only cancel bookings"))).
    { intros Hcc. apply (patchBooking_early _ _ _ _ b); [done|].
      rewrite Hreq. by apply statusUpdate_student_other. }
    split; [|exact Hother].
    apply elem_of_statuses in Hs. split.
    + intros Hcode. destruct Hs as [Hc | [Hc | ?]]; [| |done].
      * rewrite (Hother (or_introl Hc)) in Hcode. discriminate Hcode.
      * rewrite (Hother (or_intror Hc)) in Hcode. discriminate Hcode.
    + intros Hok. apply (patchBooking_saved _ _ _ _ b
        (BookingRoutes.setStatus s b)); [done|].
      rewrite Hreq. apply statusUpdate_permitted. tauto.
Qed.

Lemma C3_status_guard_witness :
  tutorBookings Sample.booked !! 20%nat = Some Sample.booking20
  ∧ truthy "cancelled" = true
  ∧ BookingRoutes.patchBooking Sample.tutor1 20%nat
      (BookingRoutes.mkPatchReq (Some "cancelled") None) Sample.booked
    = (Sample.booked,
       Res 403 (Message "Tutors cannot cancel student bookings")).
Proof.
  split; [reflexivity|]. split; [reflexivity|].
  destruct (C3_status_guard Sample.tutor1 20%nat
              (BookingRoutes.mkPatchReq (Some "cancelled") None)
              Sample.booked Sample.booking20 "cancelled"
              eq_refl eq_refl eq_refl) as (_ & Htutor & _).
  apply Htutor; [reflexivity | | reflexivity].
  apply elem_of_statuses. auto.
Defined.

(** C10.  PATCH /bookings/:id never relates the requester to the booking's
    student or tutor.  For every existing booking and every requester: a
    student's [{ status: cancelled }] and a tutor's [{ status: confirmed }]
    or [{ status: completed }] are answered 200 and the booking is stored
    with that status and its other fields as they were; and a body with a
    new booking time alone is answered 200 for either role (indeed for any
    requester) and the booking is stored with that time, whatever instant
    it is, and its other fields as they were. *)
Theorem C10_any_requester_updates (user : AuthUser) (bookingId : ObjectId)
    (db : DB) (b : TutorBooking.t) :
  tutorBookings db !! bookingId = Some b →
  (role user = "student" →
   let b' := TutorBooking.mk (TutorBooking.student b) (TutorBooking.tutor b)
               (TutorBooking.subject b) (TutorBooking.bookingTime b)
               "cancelled" in
   let run := BookingRoutes.patchBooking user bookingId
                (BookingRoutes.mkPatchReq (Some "cancelled") None) db in
   run = (with_tutorBookings (insert bookingId b') db, Res 200 (BookingDoc b'))
   ∧ tutorBookings run.1 !! bookingId = Some b')
  ∧ (role user = "tutor" →
     ∀ s, s = "confirmed" ∨ s = "completed" →
     let b' := TutorBooking.mk (TutorBooking.student b) (TutorBooking.tutor b)
                 (TutorBooking.subject b) (TutorBooking.bookingTime b) s in
     let run := BookingRoutes.patchBooking user bookingId
                  (BookingRoutes.mkPatchReq (Some s) None) db in
     run = (with_tutorBookings (insert bookingId b') db,
            Res 200 (BookingDoc b'))
     ∧ tutorBookings run.1 !! bookingId = Some b')
  ∧ (∀ t : Z,
     let b' := TutorBooking.mk (TutorBooking.student b) (TutorBooking.tutor b)
                 (TutorBooking.subject b) t (TutorBooking.status b) in
     let run := BookingRoutes.patchBooking user bookingId
                  (BookingRoutes.mkPatchReq None (Some t)) db in
     run = (with_tutorBookings (insert bookingId b') db,
            Res 200 (BookingDoc b'))
     ∧ tutorBookings run.1 !! bookingId = Some b').
Proof.
  intros Hb. split; [|split].
  - intros Hrole b' run. subst run b'. unfold BookingRoutes.patchBooking.
    rewrite Hb.
    cbn [BookingRoutes.p_status BookingRoutes.p_bookingTime].
    rewrite statusUpdate_permitted by tauto.
    split; [reflexivity | apply lookup_insert_eq].
  - intros Hrole s Hs b' run. subst run b'. unfold BookingRoutes.patchBooking.
    rewrite Hb.
    cbn [BookingRoutes.p_status BookingRoutes.p_bookingTime].
    rewrite statusUpdate_permitted by tauto.
    split; [reflexivity | apply lookup_insert_eq].
  - intros t b' run. subst run b'.
    rewrite (patchBooking_time_only user bookingId t db b Hb).
    split; [reflexivity | apply lookup_insert_eq].
Qed.

(** Student 4 and tutor 2 are no party to booking 20 (student 3, tutor 1,
    pending at 09:30): student 4 cancels it, and tutor 2 moves it to the
    instant -1. *)
Lemma C10_any_requester_updates_witness :
  tutorBookings Sample.booked !! 20%nat = Some Sample.booking20
  ∧ id Sample.student4 ≠ TutorBooking.student Sample.booking20
  ∧ id Sample.tutor2 ≠ TutorBooking.tutor Sample.booking20
  ∧ code (BookingRoutes.patchBooking Sample.student4 20%nat
            (BookingRoutes.mkPatchReq (Some "cancelled") None)
            Sample.booked).2 = 200%nat
  ∧ tutorBookings
      (BookingRoutes.patchBooking Sample.student4 20%nat
         (BookingRoutes.mkPatchReq (Some "cancelled") None)
         Sample.booked).1 !! 20%nat
    = Some (TutorBooking.mk 3 1 "Math" (Sample.h 9 30) "cancelled")
  ∧ code (BookingRoutes.patchBooking Sample.tutor2 20%nat
            (BookingRoutes.mkPatchReq None (Some (-1))) Sample.booked).2
    = 200%nat
  ∧ tutorBookings
      (BookingRoutes.patchBooking Sample.tutor2 20%nat
         (BookingRoutes.mkPatchReq None (Some (-1))) Sample.booked).1
      !! 20%nat
    = Some (TutorBooking.mk 3 1 "Math" (-1) "pending").
Proof.
  split; [reflexivity|]. split; [discriminate|]. split; [discriminate|].
  destruct (C10_any_requester_updates Sample.student4 20%nat Sample.booked
              Sample.booking20 eq_refl) as (Hstudent & _ & _).
  destruct (C10_any_requester_updates Sample.tutor2 20%nat Sample.booked
              Sample.booking20 eq_refl) as (_ & _ & Htime).
  destruct (Hstudent eq_refl) as [Hrun Hstored].
  destruct (Htime (-1)) as [Hrun' Hstored'].
  split; [by rewrite Hrun|]. split; [exact Hstored|].
  split; [by rewrite Hrun' | exact Hstored'].
Defined.

(** ** PATCH and DELETE /api/tutors/availability/:id: the booking check *)

(** Both handlers past the role test and the lookup, in terms of
    [hasBooking] for the requester. *)
Lemma deleteAvailability_booked (user : AuthUser) (availabilityId : ObjectId)
    (db : DB) (a : Availability.t) :
  role user = "tutor" →
  availabilities db !! availabilityId = Some a →
  hasBooking (tutorBookings db) (id user) (Availability.startTime a)
    (Availability.endTime a) →
  TutorRoutes.deleteAvailability user availabilityId db
  = (db, Res 400 (Message
       "Cannot delete availability, there are bookings for this slot")).
Proof.
  intros Hrole Ha Hbooked. unfold TutorRoutes.deleteAvailability.
  destruct (decide (role user ≠ "tutor")) as [Hne | _]; [congruence|].
  rewrite Ha. apply findBookings_nonempty in Hbooked.
  by destruct (decide (0 < length _)%nat).
Qed.

Lemma deleteAvailability_free (user : AuthUser) (availabilityId : ObjectId)
    (db : DB) (a : Availability.t) :
  role user = "tutor" →
  availabilities db !! availabilityId = Some a →
  ¬ hasBooking (tutorBookings db) (id user) (Availability.startTime a)
      (Availability.endTime a) →
  TutorRoutes.deleteAvailability user availabilityId db
  = (with_availabilities (delete availabilityId) db,
     Res 200 (Message "Availability deleted successfully")).
Proof.
  intros Hrole Ha Hfree. unfold TutorRoutes.deleteAvailability.
  destruct (decide (role user ≠ "tutor")) as [Hne | _]; [congruence|].
  rewrite Ha. rewrite <- findBookings_nonempty in Hfree.
  by destruct (decide (0 < length _)%nat).
Qed.

Lemma patchAvailability_booked (tz : Z) (user : AuthUser)
    (availabilityId : ObjectId) (req : TutorRoutes.PatchReq) (db : DB)
    (a : Availability.t) :
  role user = "tutor" →
  availabilities db !! availabilityId = Some a →
  hasBooking (tutorBookings db) (id user) (Availability.startTime a)
    (Availability.endTime a) →
  TutorRoutes.patchAvailability tz user availabilityId req db
  = (db, Res 400 (Message
       "Cannot update this availability as it is already booked")).
Proof.
  intros Hrole Ha Hbooked. unfold TutorRoutes.patchAvailability.
  destruct (decide (role user ≠ "tutor")) as [Hne | _]; [congruence|].
  rewrite Ha. apply findBookings_nonempty in Hbooked.
  by destruct (decide (0 < length _)%nat).
Qed.

Lemma patchAvailability_free (tz : Z) (user : AuthUser)
    (availabilityId : ObjectId) (req : TutorRoutes.PatchReq) (db : DB)
    (a : Availability.t) :
  role user = "tutor" →
  availabilities db !! availabilityId = Some a →
  ¬ hasBooking (tutorBookings db) (id user) (Availability.startTime a)
      (Availability.endTime a) →
  TutorRoutes.patchAvailability tz user availabilityId req db
  = if TutorRoutes.p_disableDay req then
      if decide (length (TutorRoutes.findBookings (id user) (Availability.day a)
                           (setHours tz (Availability.day a) 23 59 59 999)
                           (tutorBookings db)) = 0%nat)
      then (with_availabilities
              (fmap (TutorRoutes.disableSlot (id user) (Availability.day a))) db,
            Res 200 (Message
              "All availability slots for this day have been disabled"))
      else (db, Res 400 (Message
              "You have bookings for this day, you cannot disable it"))
    else (with_availabilities
            (insert availabilityId (TutorRoutes.applyPatch req a)) db,
          Res 200 (AvailabilityDoc (TutorRoutes.applyPatch req a))).
Proof.
  intros Hrole Ha Hfree. unfold TutorRoutes.patchAvailability.
  destruct (decide (role user ≠ "tutor")) as [Hne | _]; [congruence|].
  rewrite Ha. rewrite <- findBookings_nonempty in Hfree.
  by destruct (decide (0 < length _)%nat).
Qed.

(** The slot that PATCH stores, field by field: the owner and the day are
    kept, a non-empty subject, a start, an end and an [isActive] of the
    body are written, and a field the body leaves out is kept. *)
Lemma applyPatch_written (req : TutorRoutes.PatchReq) (a : Availability.t) :
  TutorRoutes.applyPatch req a
  = Availability.mk (Availability.tutor a) (Availability.day a)
      (match TutorRoutes.p_subject req with
       | Some s => if truthy s then s else Availability.subject a
       | None => Availability.subject a
       end)
      (match TutorRoutes.p_startTime req with
       | Some t => t | None => Availability.startTime a end)
      (match TutorRoutes.p_endTime req with
       | Some t => t | None => Availability.endTime a end)
      (match TutorRoutes.p_isActive req with
       | Some v => v | None => Availability.isActive a end).
Proof.
  unfold TutorRoutes.applyPatch, supplied.
  destruct (TutorRoutes.p_subject req) as [s|]; [destruct (truthy s)|];
    destruct (TutorRoutes.p_startTime req), (TutorRoutes.p_endTime req),
      (TutorRoutes.p_isActive req); reflexivity.
Qed.




(** C9.  PATCH and DELETE /availability/:id never compare the slot's
    [tutor] with the requester.  For every requester with the tutor role
    and every existing slot, whoever owns it:
    - the response is the same as for that slot owned by any other user
      ([owner] below), the requester included;
    - the conflict query is over the requester's bookings: when the
      requester has no booking in the slot's window, DELETE removes the
      slot (no document is left under its id) and PATCH without
      [disableDay] stores the slot with the body's non-empty subject,
      start, end and [isActive] written and its owner and day kept, even
      if the owner has bookings there; when the requester has one, both
      requests are refused. *)
Theorem C9_owner_never_compared (tz : Z) (user : AuthUser)
    (availabilityId : ObjectId) (req : TutorRoutes.PatchReq) (db : DB)
    (a : Availability.t) (owner : ObjectId) :
  role user = "tutor" →
  availabilities db !! availabilityId = Some a →
  let db' := with_availabilities (insert availabilityId (setTutor owner a)) db in
  let requesterBooked :=
    hasBooking (tutorBookings db) (id user) (Availability.startTime a)
      (Availability.endTime a) in
  (TutorRoutes.deleteAvailability user availabilityId db').2
  = (TutorRoutes.deleteAvailability user availabilityId db).2
  ∧ code (TutorRoutes.patchAvailability tz user availabilityId req db').2
    = code (TutorRoutes.patchAvailability tz user availabilityId req db).2
  ∧ (¬ requesterBooked →
     (TutorRoutes.deleteAvailability user availabilityId db
      = (with_availabilities (delete availabilityId) db,
         Res 200 (Message "Availability deleted successfully"))
      ∧ availabilities
          (TutorRoutes.deleteAvailability user availabilityId db).1
          !! availabilityId = None)
     ∧ (TutorRoutes.p_disableDay req = false →
        let a' :=
          Availability.mk (Availability.tutor a) (Availability.day a)
            (match TutorRoutes.p_subject req with
             | Some s => if truthy s then s else Availability.subject a
             | None => Availability.subject a
             end)
            (match TutorRoutes.p_startTime req with
             | Some t => t | None => Availability.startTime a end)
            (match TutorRoutes.p_endTime req with
             | Some t => t | None => Availability.endTime a end)
            (match TutorRoutes.p_isActive req with
             | Some v => v | None => Availability.isActive a end) in
        TutorRoutes.patchAvailability tz user availabilityId req db
        = (with_availabilities (insert availabilityId a') db,
           Res 200 (AvailabilityDoc a'))
        ∧ availabilities
            (TutorRoutes.patchAvailability tz user availabilityId req db).1
            !! availabilityId = Some a'))
  ∧ (requesterBooked →
     code (TutorRoutes.deleteAvailability user availabilityId db).2 = 400%nat
     ∧ code (TutorRoutes.patchAvailability tz user availabilityId req db).2
       = 400%nat).
Proof.
  intros Hrole Ha db' requesterBooked. subst requesterBooked.
  assert (Ha' : availabilities db' !! availabilityId = Some (setTutor owner a))
    by apply lookup_insert_eq.
  destruct (decide (0 < length (TutorRoutes.findBookings (id user)
              (Availability.startTime a) (Availability.endTime a)
              (tutorBookings db)))%nat) as [Hb | Hb];
    rewrite findBookings_nonempty in Hb.
  - rewrite (deleteAvailability_booked _ _ db a),
      (deleteAvailability_booked _ _ db' _),
      (patchAvailability_booked _ _ _ _ db a),
      (patchAvailability_booked _ _ _ _ db' _) by done.
    repeat split; tauto.
  - rewrite (deleteAvailability_free _ _ db a),
      (deleteAvailability_free _ _ db' _),
      (patchAvailability_free _ _ _ _ db a),
      (patchAvailability_free _ _ _ _ db' _) by done.
    split; [done|]. split.
    + simpl. destruct (TutorRoutes.p_disableDay req); [|done].
      by destruct (decide _).
    + split; [|tauto]. intros _. split.
      * split; [done|]. simpl. apply lookup_delete_eq.
      * intros ->. simpl. rewrite <- applyPatch_written.
        split; [done | apply lookup_insert_eq].
Qed.

(** Slot 10 (Math, 09:00-10:00) belongs to tutor 1, who has a booking in
    it.  Tutor 2 patches it to Chess at 07:00, and tutor 2 deletes it. *)
Lemma C9_owner_never_compared_witness :
  role Sample.tutor2 = "tutor"
  ∧ availabilities Sample.booked !! 10%nat = Some Sample.slot10
  ∧ Availability.tutor Sample.slot10 ≠ id Sample.tutor2
  ∧ hasBooking (tutorBookings Sample.booked) (Availability.tutor Sample.slot10)
      (Availability.startTime Sample.slot10) (Availability.endTime Sample.slot10)
  ∧ code (TutorRoutes.patchAvailability 0 Sample.tutor2 10%nat
            Scenario.moveToSeven Sample.booked).2 = 200%nat
  ∧ availabilities
      (TutorRoutes.patchAvailability 0 Sample.tutor2 10%nat
         Scenario.moveToSeven Sample.booked).1 !! 10%nat
    = Some (Availability.mk 1 0 "Chess" (Sample.h 7 0) (Sample.h 10 0) true)
  ∧ code (TutorRoutes.deleteAvailability Sample.tutor2 10%nat
            Sample.booked).2 = 200%nat
  ∧ availabilities
      (TutorRoutes.deleteAvailability Sample.tutor2 10%nat Sample.booked).1
      !! 10%nat = None.
Proof.
  split; [reflexivity|]. split; [reflexivity|]. split; [discriminate|].
  split.
  { exists 20%nat, Sample.booking20.
    split; [reflexivity|]. split; [reflexivity|].
    split; vm_compute; [discriminate | reflexivity]. }
  destruct (C9_owner_never_compared 0 Sample.tutor2 10%nat
              Scenario.moveToSeven Sample.booked
              Sample.slot10 1%nat eq_refl eq_refl) as (_ & _ & Hfree & _).
  assert (Hnone : ¬ hasBooking (tutorBookings Sample.booked)
                      (id Sample.tutor2) (Availability.startTime Sample.slot10)
                      (Availability.endTime Sample.slot10)).
  { rewrite <- findBookings_nonempty. vm_compute. lia. }
  destruct (Hfree Hnone) as [[Hdel Hgone] Hpatch].
  destruct (Hpatch eq_refl) as [Hrun Hstored].
  split; [by rewrite Hrun|]. split; [exact Hstored|].
  split; [by rewrite Hdel | exact Hgone].
Defined.

(** ** PATCH /api/tutors/availability/:id with [disableDay] *)

(** What the day-disable branch does once the slot itself is free of the
    requester's bookings: the window queried is [[day, 23:59:59.999)] of
    the slot's day, half-open. *)
Lemma patchAvailability_disableDay (tz : Z) (user : AuthUser)
    (availabilityId : ObjectId) (req : TutorRoutes.PatchReq) (db : DB)
    (a : Availability.t) :
  role user = "tutor" →
  availabilities db !! availabilityId = Some a →
  TutorRoutes.p_disableDay req = true →
  ¬ hasBooking (tutorBookings db) (id user) (Availability.startTime a)
      (Availability.endTime a) →
  let dayBooked :=
    hasBooking (tutorBookings db) (id user) (Availability.day a)
      (setHours tz (Availability.day a) 23 59 59 999) in
  (dayBooked →
   TutorRoutes.patchAvailability tz user availabilityId req db
   = (db, Res 400 (Message
        "You have bookings for this day, you cannot disable it")))
  ∧ (¬ dayBooked →
     TutorRoutes.patchAvailability tz user availabilityId req db
     = (with_availabilities
          (fmap (TutorRoutes.disableSlot (id user) (Availability.day a))) db,
        Res 200 (Message
          "All availability slots for this day have been disabled"))).
Proof.
  intros Hrole Ha Hd Hfree dayBooked. subst dayBooked.
  rewrite (patchAvailability_free _ _ _ _ _ a), Hd by done.
  rewrite <- findBookings_nonempty.
  destruct (decide (length _ = 0%nat)) as [Hz | Hz]; split; intros H;
    (done || lia).
Qed.

(** After [updateMany], every slot of the requester on that day is
    inactive. *)
Lemma disableSlot_all (m : gmap nat Availability.t) (tutorId : ObjectId)
    (day : Z) (i : ObjectId) (a : Availability.t) :
  m !! i = Some a →
  Availability.tutor a = tutorId → Availability.day a = day →
  ∃ a', (TutorRoutes.disableSlot tutorId day <$> m) !! i = Some a'
        ∧ Availability.isActive a' = false.
Proof.
  intros Hi Ht Hd. rewrite lookup_fmap, Hi. simpl.
  eexists; split; [reflexivity|]. unfold TutorRoutes.disableSlot.
  destruct (decide _) as [_ | Hn]; [reflexivity | tauto].
Qed.

(** C5 (the code at the failing input).  Tutor 1 has the slot 09:00-10:00
    on day 0; student 3 books tutor 1 at 23:59:59.999 of that day, inside
    the closed calendar-day window.  The day-disable request of tutor 1 is
    then answered 200 and the slot is set inactive: the [$lt] bound leaves
    the last millisecond of the day out of the query. *)
Theorem C5_last_millisecond_unchecked :
  let run :=
    TutorRoutes.patchAvailability 0 Sample.tutor1 10%nat
      (TutorRoutes.mkPatchReq None None None true None) Sample.lateBooking in
  tutorBookings Sample.lateBooking !! 100%nat
  = Some (TutorBooking.mk 3 1 "Math" 86399999 "pending")
  ∧ hasBookingOnDay (tutorBookings Sample.lateBooking) 0 1
      (Availability.day Sample.slot10)
  ∧ run.2 = Res 200 (Message
              "All availability slots for this day have been disabled")
  ∧ availabilities run.1 !! 10%nat
    = Some (Availability.mk 1 0 "Math" (Sample.h 9 0) (Sample.h 10 0) false).
Proof.
  split; [reflexivity|]. split; [|split; reflexivity].
  exists 100%nat, (TutorBooking.mk 3 1 "Math" 86399999 "pending").
  split; [reflexivity|]. split; [reflexivity|].
  split; vm_compute; discriminate.
Qed.

(** ** The back-reference lists of the user documents *)

(** DELETE /availability/:id writes to the slot collection only. *)
Lemma deleteAvailability_users (user : AuthUser) (availabilityId : ObjectId)
    (db : DB) :
  users (TutorRoutes.deleteAvailability user availabilityId db).1 = users db.
Proof.
  unfold TutorRoutes.deleteAvailability.
  destruct (decide _); [done|].
  destruct (availabilities db !! availabilityId); [|done].
  by destruct (decide _).
Qed.

(** The sibling handlers do maintain the list: after a successful leave
    the group is no longer in the student's [joinedStudyGroups]. *)
Lemma leaveStudyGroup_pulls (user : AuthUser) (groupId : ObjectId) (db : DB)
    (u : User.t) :
  code (StudyGroupRoutes.leaveStudyGroup user groupId db).2 = 200%nat →
  users (StudyGroupRoutes.leaveStudyGroup user groupId db).1 !! id user = Some u →
  groupId ∉ User.joinedStudyGroups u.
Proof.
  unfold StudyGroupRoutes.leaveStudyGroup.
  destruct (studyGroups db !! groupId); [|discriminate].
  repeat (destruct (decide _); [discriminate|]).
  intros _. simpl. rewrite lookup_alter_eq.
  destruct (users db !! id user); [|discriminate]. simpl.
  intros [= <-]. simpl. rewrite list_elem_of_filter. tauto.
Qed.

(** And after a successful group deletion the group is no longer in the
    creator's list. *)
Lemma deleteStudyGroup_pulls (user : AuthUser) (groupId : ObjectId) (db : DB)
    (u : User.t) :
  code (StudyGroupRoutes.deleteStudyGroup user groupId db).2 = 200%nat →
  users (StudyGroupRoutes.deleteStudyGroup user groupId db).1 !! id user = Some u →
  groupId ∉ User.joinedStudyGroups u.
Proof.
  unfold StudyGroupRoutes.deleteStudyGroup.
  destruct (studyGroups db !! groupId) as [g|]; [|discriminate].
  destruct (decide (StudyGroup.creator g ≠ id user)) as [|Hc]; [discriminate|].
  destruct (decide _); [discriminate|].
  apply dec_stable in Hc. rewrite Hc.
  intros _. simpl. rewrite lookup_alter_eq.
  destruct (users db !! id user); [|discriminate]. simpl.
  intros [= <-]. simpl. rewrite list_elem_of_filter. tauto.
Qed.

(** C6 (the code at the failing input).  Tutor 1 posts the slot
    09:00-10:00: it is stored under the new id 100 and 100 is appended to
    the tutor's [tutoringAvailability].  Tutor 1 then deletes slot 100:
    the answer is 200, the slot document is gone, and the tutor's list
    still holds 100, so the list and the slot collection disagree. *)
Theorem C6_deleted_slot_stays_listed :
  let created :=
    TutorRoutes.postAvailability (Sample.h 8 0) Sample.tutor1
      [Sample.nineToTen] Sample.noSlots in
  let run := TutorRoutes.deleteAvailability Sample.tutor1 100%nat created.1 in
  created.2 = Res 201 (Slots "Availability added successfully" [100%nat])
  ∧ availabilities created.1 !! 100%nat = Some (slotOf 1 Sample.nineToTen)
  ∧ User.tutoringAvailability <$> users created.1 !! 1%nat = Some [100%nat]
  ∧ run.2 = Res 200 (Message "Availability deleted successfully")
  ∧ availabilities run.1 !! 100%nat = None
  ∧ User.tutoringAvailability <$> users run.1 !! 1%nat = Some [100%nat].
Proof. repeat split; reflexivity. Qed.

(** ** Study groups: membership *)

(** Removing a student who was appended to a list that did not hold them
    gives the list back. *)
Lemma filter_after_push (participants : list ObjectId) (u : ObjectId) :
  u ∉ participants →
  filter (λ participant, participant ≠ u) (participants ++ [u]) = participants.
Proof.
  intros Hu. rewrite filter_app.
  rewrite (filter_cons_False _ u []) by tauto.
  rewrite filter_nil, app_nil_r.
  induction participants as [|p ps IH]; [done|].
  apply not_elem_of_cons in Hu as [Hne Hu].
  rewrite filter_cons_True by congruence. by rewrite IH.
Qed.

(** C7.  A student who is neither the creator nor a participant joins an
    existing group and then leaves it: both requests succeed (200) and the
    group document, hence its participants, is the original one. *)
Theorem C7_join_then_leave (user : AuthUser) (groupId : ObjectId) (db : DB)
    (g : StudyGroup.t) :
  studyGroups db !! groupId = Some g →
  role user = "student" →
  StudyGroup.creator g ≠ id user →
  id user ∉ StudyGroup.participants g →
  let joined := StudyGroupRoutes.joinStudyGroup user groupId db in
  let left := StudyGroupRoutes.leaveStudyGroup user groupId joined.1 in
  code joined.2 = 200%nat
  ∧ (∃ g1, studyGroups joined.1 !! groupId = Some g1
           ∧ StudyGroup.participants g1 = StudyGroup.participants g ++ [id user])
  ∧ code left.2 = 200%nat
  ∧ (∃ g2, studyGroups left.1 !! groupId = Some g2
           ∧ StudyGroup.participants g2 = StudyGroup.participants g)
  ∧ studyGroups left.1 = studyGroups db.
Proof.
  intros Hg Hrole Hcreator Hnew joined left.
  assert (Hjoin : joined =
    (StudyGroupRoutes.pushJoined (id user) groupId
       (with_studyGroups
          (insert groupId
             (StudyGroupRoutes.setParticipants
                (StudyGroup.participants g ++ [id user]) g)) db),
     Res 200 (GroupMessage "Joined study group successfully"
                (StudyGroupRoutes.setParticipants
                   (StudyGroup.participants g ++ [id user]) g)))).
  { subst joined. unfold StudyGroupRoutes.joinStudyGroup. rewrite Hg.
    destruct (decide (role user ≠ "student")); [congruence|].
    destruct (decide (StudyGroup.creator g = id user)); [congruence|].
    by destruct (decide (id user ∈ StudyGroup.participants g)). }
  assert (Hleft : left =
    (StudyGroupRoutes.pullJoined (id user) groupId
       (with_studyGroups (insert groupId g) joined.1),
     Res 200 (GroupMessage "Left study group successfully" g))).
  { subst left. unfold StudyGroupRoutes.leaveStudyGroup.
    rewrite Hjoin. simpl. rewrite lookup_insert_eq. simpl.
    destruct (decide (role user ≠ "student")); [congruence|].
    destruct (decide (StudyGroup.creator g = id user)); [congruence|].
    destruct (decide (id user ∉ StudyGroup.participants g ++ [id user]))
      as [Hout | _].
    { exfalso. apply Hout, elem_of_app. right. left. }
    rewrite (filter_after_push _ _ Hnew).
    by destruct g. }
  rewrite Hleft, Hjoin. simpl.
  split; [done|]. split.
  { eexists. rewrite lookup_insert_eq. split; reflexivity. }
  split; [done|].
  rewrite insert_insert_eq, (insert_id _ _ _ Hg). split; [|done].
  exists g. by split.
Qed.

(** Student 4 joins and leaves group 31 of student 3. *)
Lemma C7_join_then_leave_witness :
  studyGroups Sample.oneMember !! 31%nat = Some Sample.group31
  ∧ role Sample.student4 = "student"
  ∧ StudyGroup.creator Sample.group31 ≠ id Sample.student4
  ∧ (id Sample.student4 ∉ StudyGroup.participants Sample.group31)
  ∧ studyGroups
      (StudyGroupRoutes.leaveStudyGroup Sample.student4 31%nat
         (StudyGroupRoutes.joinStudyGroup Sample.student4 31%nat
            Sample.oneMember).1).1
    = studyGroups Sample.oneMember.
Proof.
  assert (Hnew : id Sample.student4 ∉ StudyGroup.participants Sample.group31).
  { simpl. rewrite elem_of_cons, elem_of_nil. intros [? | []]. discriminate. }
  split; [reflexivity|]. split; [reflexivity|]. split; [discriminate|].
  split; [exact Hnew|].
  apply (C7_join_then_leave Sample.student4 31%nat Sample.oneMember
           Sample.group31 eq_refl eq_refl ltac:(discriminate) Hnew).
Defined.

(** ** PATCH /api/studyGroups/:id: the lock on subject, date and time *)

(** The update past the lookup and the creator test. *)
Lemma patchStudyGroup_creator (user : AuthUser) (groupId : ObjectId)
    (req : StudyGroupRoutes.PatchReq) (db : DB) (g : StudyGroup.t) :
  studyGroups db !! groupId = Some g →
  StudyGroup.creator g = id user →
  StudyGroupRoutes.patchStudyGroup user groupId req db
  = if bool_decide (1 < length (StudyGroup.participants g))%nat
       && (supplied (StudyGroupRoutes.p_subject req)
           || supplied (StudyGroupRoutes.p_date req)
           || supplied (StudyGroupRoutes.p_time req))
    then (db, Res 400 (Message
      "Cannot change subject, date, or time once participants have joined. You can only modify the duration and description."))
    else (with_studyGroups
            (insert groupId (StudyGroupRoutes.applyPatch req g)) db,
          Res 200 (GroupMessage "Study group updated successfully"
                     (StudyGroupRoutes.applyPatch req g))).
Proof.
  intros Hg Hc. unfold StudyGroupRoutes.patchStudyGroup. rewrite Hg.
  by destruct (decide (StudyGroup.creator g ≠ id user)).
Qed.

(** C8, as stated, fails: group 30 has two participants; its creator sends
    a body whose subject is the empty string.  The body supplies a subject
    value, yet the request is answered 200: the lock tests the truthiness
    of the three fields. *)
Lemma C8_counterexample :
  ¬ (∀ (user : AuthUser) (groupId : ObjectId)
       (req : StudyGroupRoutes.PatchReq) (db : DB) (g : StudyGroup.t),
       studyGroups db !! groupId = Some g →
       StudyGroup.creator g = id user →
       (1 < length (StudyGroup.participants g))%nat →
       is_Some (StudyGroupRoutes.p_subject req)
       ∨ is_Some (StudyGroupRoutes.p_date req)
       ∨ is_Some (StudyGroupRoutes.p_time req) →
       code (StudyGroupRoutes.patchStudyGroup user groupId req db).2 = 400%nat).
Proof.
  intros H.
  specialize (H Sample.student3 30%nat
    (StudyGroupRoutes.mkPatchReq (Some EmptyString) None None None None)
    Sample.twoMembers Sample.group30 eq_refl eq_refl).
  simpl in H. specialize (H ltac:(lia) (or_introl (mk_is_Some _ _ eq_refl))).
  discriminate H.
Qed.

(** C8 (amended).  The creator updates an existing group.  If the group
    has more than one participant and the body supplies a non-empty
    subject, date or time, the request is refused with 400 and the store is
    unchanged.  A body that supplies none of subject, date and time, hence
    at most description and duration, succeeds (200) and stores the update
    whatever the number of participants. *)
Theorem C8_locked_fields (user : AuthUser) (groupId : ObjectId)
    (req : StudyGroupRoutes.PatchReq) (db : DB) (g : StudyGroup.t) :
  studyGroups db !! groupId = Some g →
  StudyGroup.creator g = id user →
  ((1 < length (StudyGroup.participants g))%nat →
   supplied (StudyGroupRoutes.p_subject req) = true
   ∨ supplied (StudyGroupRoutes.p_date req) = true
   ∨ supplied (StudyGroupRoutes.p_time req) = true →
   StudyGroupRoutes.patchStudyGroup user groupId req db
   = (db, Res 400 (Message
        "Cannot change subject, date, or time once participants have joined. You can only modify the duration and description.")))
  ∧ (StudyGroupRoutes.p_subject req = None →
     StudyGroupRoutes.p_date req = None →
     StudyGroupRoutes.p_time req = None →
     StudyGroupRoutes.patchStudyGroup user groupId req db
     = (with_studyGroups
          (insert groupId (StudyGroupRoutes.applyPatch req g)) db,
        Res 200 (GroupMessage "Study group updated successfully"
                   (StudyGroupRoutes.applyPatch req g)))
     ∧ StudyGroup.subject (StudyGroupRoutes.applyPatch req g)
       = StudyGroup.subject g
     ∧ StudyGroup.date (StudyGroupRoutes.applyPatch req g) = StudyGroup.date g
     ∧ StudyGroup.time (StudyGroupRoutes.applyPatch req g) = StudyGroup.time g).
Proof.
  intros Hg Hc. rewrite (patchStudyGroup_creator _ _ _ _ g Hg Hc). split.
  - intros Hlen Hsup. rewrite bool_decide_eq_true_2 by done. simpl.
    destruct Hsup as [-> | [-> | ->]]; simpl;
      by rewrite ?orb_true_r.
  - intros Hs Hd Ht. unfold StudyGroupRoutes.applyPatch.
    rewrite Hs, Hd, Ht. simpl. by rewrite andb_false_r.
Qed.

(** The scenario of the spec: group 30 has two participants; a change of
    subject is refused and a change of duration alone is accepted. *)
Lemma C8_locked_fields_witness :
  studyGroups Sample.twoMembers !! 30%nat = Some Sample.group30
  ∧ StudyGroup.creator Sample.group30 = id Sample.student3
  ∧ code (StudyGroupRoutes.patchStudyGroup Sample.student3 30%nat
            (StudyGroupRoutes.mkPatchReq (Some "Physics") None None None None)
            Sample.twoMembers).2 = 400%nat
  ∧ code (StudyGroupRoutes.patchStudyGroup Sample.student3 30%nat
            (StudyGroupRoutes.mkPatchReq None None None None (Some 90))
            Sample.twoMembers).2 = 200%nat.
Proof.
  split; [reflexivity|]. split; [reflexivity|].
  destruct (C8_locked_fields Sample.student3 30%nat
              (StudyGroupRoutes.mkPatchReq (Some "Physics") None None None None)
              Sample.twoMembers Sample.group30 eq_refl eq_refl)
    as [Hlocked _].
  destruct (C8_locked_fields Sample.student3 30%nat
              (StudyGroupRoutes.mkPatchReq None None None None (Some 90))
              Sample.twoMembers Sample.group30 eq_refl eq_refl)
    as [_ Hfree].
  split.
  - rewrite Hlocked; [reflexivity | simpl; lia | left; reflexivity].
  - destruct (Hfree eq_refl eq_refl eq_refl) as [-> _]. reflexivity.
Defined.

(** ** POST /api/tutors/availability: the loop over the request's slots *)

Lemma findSortedForDay_none (m : gmap nat Availability.t) tutorId day :
  ¬ hasSlot m tutorId day → TutorRoutes.findSortedForDay tutorId day m = [].
Proof.
  intros Hnone. apply elem_of_nil_inv. intros [i a] Hin.
  apply findSortedForDay_elem in Hin as (? & ? & ?).
  apply Hnone. by exists i, a.
Qed.

(** One accepted iteration of the loop. *)
Lemma addSlots_accept (now : Z) (tutorId : ObjectId)
    (slot : TutorRoutes.SlotReq) (rest : list TutorRoutes.SlotReq)
    (createdSlots : list ObjectId) (db : DB) :
  now ≤ TutorRoutes.startTime slot →
  TutorRoutes.earliestAvailableStartTime
    (TutorRoutes.findSortedForDay tutorId (TutorRoutes.day slot)
       (availabilities db)) (TutorRoutes.startTime slot)
  ≤ TutorRoutes.startTime slot →
  TutorRoutes.addSlots now tutorId (slot :: rest) createdSlots db
  = TutorRoutes.addSlots now tutorId rest (createdSlots ++ [nextId db])
      (with_availabilities (insert (nextId db) (slotOf tutorId slot))
         (fresh_id db).2).
Proof.
  intros Hnow Hfloor. simpl.
  destruct (decide (TutorRoutes.startTime slot < now)); [lia|].
  destruct (decide (TutorRoutes.startTime slot < _)); [lia|]. reflexivity.
Qed.

(** A request of one slot is answered 201 only if the slot passes both
    tests of the loop. *)
Lemma postAvailability_single_inv (now : Z) (user : AuthUser)
    (slot : TutorRoutes.SlotReq) (db : DB) :
  code (TutorRoutes.postAvailability now user [slot] db).2 = 201%nat →
  role user = "tutor"
  ∧ now ≤ TutorRoutes.startTime slot
  ∧ TutorRoutes.earliestAvailableStartTime
      (TutorRoutes.findSortedForDay (id user) (TutorRoutes.day slot)
         (availabilities db)) (TutorRoutes.startTime slot)
    ≤ TutorRoutes.startTime slot.
Proof.
  unfold TutorRoutes.postAvailability.
  destruct (decide (role user ≠ "tutor")) as [| Hrole]; [discriminate|].
  apply dec_stable in Hrole. simpl.
  destruct (decide (TutorRoutes.startTime slot < now)); [discriminate|].
  destruct (decide (TutorRoutes.startTime slot < _)); [discriminate|].
  intros _. repeat split; (done || lia).
Qed.

(** The sorted slots of a day that holds one slot only. *)
Lemma last_findSortedForDay_only (m : gmap nat Availability.t) tutorId day
    (y : ObjectId * Availability.t) :
  (∀ x, x ∈ TutorRoutes.findSortedForDay tutorId day m ↔ x = y) →
  last (TutorRoutes.findSortedForDay tutorId day m) = Some y.
Proof.
  intros Honly.
  destruct (last (TutorRoutes.findSortedForDay tutorId day m)) as [z|] eqn:E.
  - apply last_Some_elem_of, Honly in E. by subst z.
  - apply last_None in E. assert (Hy : y ∈ TutorRoutes.findSortedForDay
      tutorId day m) by by apply Honly.
    rewrite E in Hy. by apply elem_of_nil in Hy.
Qed.

(** X1.  A tutor's request with an empty availability list is answered 201
    with no slot ids and leaves the whole store as it was. *)
Theorem X1_post_empty_list (now : Z) (user : AuthUser) (db : DB) :
  role user = "tutor" →
  TutorRoutes.postAvailability now user [] db
  = (db, Res 201 (Slots "Availability added successfully" [])).
Proof.
  intros Hrole. unfold TutorRoutes.postAvailability.
  destruct (decide (role user ≠ "tutor")); [congruence|]. simpl.
  f_equal. unfold TutorRoutes.pushTutoringAvailability, with_users.
  destruct db as [us av bk gr nid]. simpl. f_equal.
  apply alter_id. intros [l j] _. simpl. by rewrite app_nil_r.
Qed.

Lemma X1_post_empty_list_witness :
  role Sample.tutor1 = "tutor"
  ∧ TutorRoutes.postAvailability 0 Sample.tutor1 [] Sample.oneSlot
    = (Sample.oneSlot, Res 201 (Slots "Availability added successfully" [])).
Proof.
  split; [reflexivity|].
  apply (X1_post_empty_list 0 Sample.tutor1 Sample.oneSlot eq_refl).
Defined.

(** X2.  The first slot of a tutor's day is tested against the clock only:
    with no slot stored for that (tutor, day), a request of one slot is
    refused (400, start time in the past) when its start is before the
    current instant and is accepted otherwise, whatever its [endTime] is
    (an end before the start included); the stored document is the
    request's slot, active. *)
Theorem X2_first_slot_of_day (now : Z) (user : AuthUser)
    (slot : TutorRoutes.SlotReq) (db : DB) :
  role user = "tutor" →
  ¬ hasSlot (availabilities db) (id user) (TutorRoutes.day slot) →
  (TutorRoutes.startTime slot < now →
   TutorRoutes.postAvailability now user [slot] db
   = (db, Res 400 (Message "Start time cannot be in the past")))
  ∧ (now ≤ TutorRoutes.startTime slot →
     let run := TutorRoutes.postAvailability now user [slot] db in
     run.2 = Res 201 (Slots "Availability added successfully" [nextId db])
     ∧ availabilities run.1 !! nextId db
       = Some (Availability.mk (id user) (TutorRoutes.day slot)
                 (TutorRoutes.subject slot) (TutorRoutes.startTime slot)
                 (TutorRoutes.endTime slot) true)).
Proof.
  intros Hrole Hnone. split; [intros; by apply postAvailability_past|].
  intros Hnow. rewrite (postAvailability_single now user slot db Hrole Hnow).
  rewrite (findSortedForDay_none _ _ _ Hnone).
  unfold TutorRoutes.earliestAvailableStartTime. simpl.
  destruct (decide (TutorRoutes.startTime slot < TutorRoutes.startTime slot));
    [lia|].
  simpl. split; [done|]. apply lookup_insert_eq.
Qed.

(** Tutor 1 has no slot on the day before day 0; a slot ending before it
    starts is accepted. *)
Lemma X2_first_slot_of_day_witness :
  role Sample.tutor1 = "tutor"
  ∧ ¬ hasSlot (availabilities Sample.oneSlot) 1 (-86400000)
  ∧ code (TutorRoutes.postAvailability (-86400000) Sample.tutor1
            [TutorRoutes.mkSlotReq (-86400000) "Math" (-3600000) (-7200000)]
            Sample.oneSlot).2 = 201%nat.
Proof.
  assert (Hnone : ¬ hasSlot (availabilities Sample.oneSlot) 1 (-86400000)).
  { intros (i & a & Hi & _ & Hd). simpl in Hi.
    apply lookup_singleton_Some in Hi as [_ <-]. discriminate Hd. }
  split; [reflexivity|]. split; [exact Hnone|].
  destruct (X2_first_slot_of_day (-86400000) Sample.tutor1
              (TutorRoutes.mkSlotReq (-86400000) "Math" (-3600000) (-7200000))
              Sample.oneSlot eq_refl Hnone) as [_ Hacc].
  destruct Hacc as [-> _]; [vm_compute; discriminate | reflexivity].
Defined.

(** X3.  A rejected slot does not undo the slots saved before it.  If a
    first slot would be accepted on its own and the second slot of the
    same request starts before the current instant, the request is
    answered 400, the first slot is stored all the same, and no user
    document is written: the stored slot is in no [tutoringAvailability]
    list. *)
Theorem X3_no_rollback (now : Z) (user : AuthUser)
    (slot1 slot2 : TutorRoutes.SlotReq) (rest : list TutorRoutes.SlotReq)
    (db : DB) :
  code (TutorRoutes.postAvailability now user [slot1] db).2 = 201%nat →
  TutorRoutes.startTime slot2 < now →
  let run :=
    TutorRoutes.postAvailability now user (slot1 :: slot2 :: rest) db in
  run.2 = Res 400 (Message "Start time cannot be in the past")
  ∧ availabilities run.1 !! nextId db = Some (slotOf (id user) slot1)
  ∧ users run.1 = users db.
Proof.
  intros Hone Hpast run. subst run.
  apply postAvailability_single_inv in Hone as (Hrole & Hnow & Hfloor).
  unfold TutorRoutes.postAvailability.
  destruct (decide (role user ≠ "tutor")); [congruence|].
  rewrite (addSlots_accept _ _ _ _ _ _ Hnow Hfloor). simpl.
  destruct (decide (TutorRoutes.startTime slot2 < now)); [|lia]. simpl.
  split; [done|]. split; [apply lookup_insert_eq | done].
Qed.

Lemma X3_no_rollback_witness :
  code (TutorRoutes.postAvailability (Sample.h 8 0) Sample.tutor1
          [Sample.nineToTen] Sample.noSlots).2 = 201%nat
  ∧ availabilities
      (TutorRoutes.postAvailability (Sample.h 8 0) Sample.tutor1
         [Sample.nineToTen; Scenario.yesterday] Sample.noSlots).1 !! 100%nat
    = Some (slotOf 1 Sample.nineToTen)
  ∧ users
      (TutorRoutes.postAvailability (Sample.h 8 0) Sample.tutor1
         [Sample.nineToTen; Scenario.yesterday] Sample.noSlots).1
    = users Sample.noSlots.
Proof.
  split; [reflexivity|].
  apply (X3_no_rollback (Sample.h 8 0) Sample.tutor1 Sample.nineToTen
           Scenario.yesterday [] Sample.noSlots eq_refl).
  vm_compute. reflexivity.
Defined.

(** X4.  Within one request a slot is tested against the slots saved
    earlier in the same request.  On a day without slots, if the first
    slot is not in the past and the second slot is for the same day, not
    in the past, and starts before the first one ends, the request is
    answered 400 citing the first slot's end, and the first slot stays
    stored. *)
Theorem X4_second_slot_meets_first (now : Z) (user : AuthUser)
    (slot1 slot2 : TutorRoutes.SlotReq) (rest : list TutorRoutes.SlotReq)
    (db : DB) :
  role user = "tutor" →
  ¬ hasSlot (availabilities db) (id user) (TutorRoutes.day slot1) →
  TutorRoutes.day slot2 = TutorRoutes.day slot1 →
  now ≤ TutorRoutes.startTime slot1 →
  now ≤ TutorRoutes.startTime slot2 →
  TutorRoutes.startTime slot2 < TutorRoutes.endTime slot1 →
  let run :=
    TutorRoutes.postAvailability now user (slot1 :: slot2 :: rest) db in
  run.2 = Res 400 (StartAfter (TutorRoutes.subject slot2)
                     (TutorRoutes.endTime slot1))
  ∧ availabilities run.1 !! nextId db = Some (slotOf (id user) slot1).
Proof.
  intros Hrole Hnone Hday Hnow1 Hnow2 Hcmp run. subst run.
  unfold TutorRoutes.postAvailability.
  destruct (decide (role user ≠ "tutor")); [congruence|].
  rewrite addSlots_accept;
    [|done|rewrite (findSortedForDay_none _ _ _ Hnone);
            unfold TutorRoutes.earliestAvailableStartTime; simpl; lia].
  assert (Hlast : last (TutorRoutes.findSortedForDay (id user)
            (TutorRoutes.day slot2)
            (<[nextId db:=slotOf (id user) slot1]> (availabilities db)))
          = Some (nextId db, slotOf (id user) slot1)).
  { apply last_findSortedForDay_only. intros [i a].
    rewrite findSortedForDay_elem. simpl. rewrite lookup_insert_Some. split.
    - intros ([[<- <-] | [Hne Hi]] & Ht & Hd); [done|].
      exfalso. apply Hnone. exists i, a. rewrite <- Hday. done.
    - intros [= -> ->]. split; [by left|]. by rewrite Hday. }
  simpl. destruct (decide (TutorRoutes.startTime slot2 < now)); [lia|].
  unfold TutorRoutes.earliestAvailableStartTime. rewrite Hlast. simpl.
  destruct (decide (TutorRoutes.startTime slot2 < TutorRoutes.endTime slot1));
    [|lia].
  simpl. split; [done|]. apply lookup_insert_eq.
Qed.

Lemma X4_second_slot_meets_first_witness :
  ¬ hasSlot (availabilities Sample.noSlots) 1 0
  ∧ (TutorRoutes.postAvailability (Sample.h 8 0) Sample.tutor1
       [Sample.nineToTen; Scenario.nineThirty] Sample.noSlots).2
    = Res 400 (StartAfter "Biology" (Sample.h 10 0)).
Proof.
  assert (Hnone : ¬ hasSlot (availabilities Sample.noSlots) 1 0).
  { intros (i & a & Hi & _). simpl in Hi. by rewrite lookup_empty in Hi. }
  split; [exact Hnone|].
  apply (X4_second_slot_meets_first (Sample.h 8 0) Sample.tutor1
           Sample.nineToTen Scenario.nineThirty [] Sample.noSlots
           eq_refl Hnone eq_refl);
    vm_compute; (discriminate || reflexivity).
Defined.

(** ** DELETE and day disable: what is written *)

(** X5.  A successful DELETE removes exactly the addressed slot: the slot
    is gone, every other slot and every booking is as before, and a second
    DELETE of the same id is answered 404 and changes nothing. *)
Theorem X5_delete_only_that_slot (user : AuthUser) (availabilityId : ObjectId)
    (db : DB) (a : Availability.t) :
  role user = "tutor" →
  availabilities db !! availabilityId = Some a →
  ¬ hasBooking (tutorBookings db) (id user) (Availability.startTime a)
      (Availability.endTime a) →
  let run := TutorRoutes.deleteAvailability user availabilityId db in
  availabilities run.1 !! availabilityId = None
  ∧ (∀ j, j ≠ availabilityId →
          availabilities run.1 !! j = availabilities db !! j)
  ∧ tutorBookings run.1 = tutorBookings db
  ∧ TutorRoutes.deleteAvailability user availabilityId run.1
    = (run.1, Res 404 (Message "Availability not found")).
Proof.
  intros Hrole Ha Hfree run. subst run.
  rewrite (deleteAvailability_free _ _ _ a Hrole Ha Hfree). simpl.
  split; [apply lookup_delete_eq|].
  split; [intros j Hj; by apply lookup_delete_ne|].
  split; [done|].
  unfold TutorRoutes.deleteAvailability.
  destruct (decide (role user ≠ "tutor")); [congruence|].
  simpl. by rewrite lookup_delete_eq.
Qed.

Lemma X5_delete_only_that_slot_witness :
  role Sample.tutor1 = "tutor"
  ∧ availabilities Sample.oneSlot !! 10%nat = Some Sample.slot10
  ∧ ¬ hasBooking (tutorBookings Sample.oneSlot) 1 (Sample.h 9 0) (Sample.h 10 0)
  ∧ code (TutorRoutes.deleteAvailability Sample.tutor1 10%nat
            (TutorRoutes.deleteAvailability Sample.tutor1 10%nat
               Sample.oneSlot).1).2 = 404%nat.
Proof.
  assert (Hfree : ¬ hasBooking (tutorBookings Sample.oneSlot) 1
                      (Sample.h 9 0) (Sample.h 10 0)).
  { intros (i & b & Hi & _). simpl in Hi. by rewrite lookup_empty in Hi. }
  split; [reflexivity|]. split; [reflexivity|]. split; [exact Hfree|].
  destruct (X5_delete_only_that_slot Sample.tutor1 10%nat Sample.oneSlot
              Sample.slot10 eq_refl eq_refl Hfree) as (_ & _ & _ & ->).
  reflexivity.
Defined.

(** X6.  A successful day disable writes [isActive = false] to the slots
    of the requester on the addressed slot's day and to nothing else: the
    other fields of those slots, the slots of other days and the slots of
    other tutors are as before, and the subject, times and [isActive] of
    the request body are not applied.  In particular, when the addressed
    slot belongs to another tutor it is itself left as it was. *)
Theorem X6_disable_day_effect (tz : Z) (user : AuthUser)
    (availabilityId : ObjectId) (req : TutorRoutes.PatchReq) (db : DB)
    (a : Availability.t) :
  role user = "tutor" →
  availabilities db !! availabilityId = Some a →
  TutorRoutes.p_disableDay req = true →
  ¬ hasBooking (tutorBookings db) (id user) (Availability.startTime a)
      (Availability.endTime a) →
  ¬ hasBooking (tutorBookings db) (id user) (Availability.day a)
      (setHours tz (Availability.day a) 23 59 59 999) →
  let run := TutorRoutes.patchAvailability tz user availabilityId req db in
  code run.2 = 200%nat
  ∧ (∀ i s, availabilities db !! i = Some s →
       Availability.tutor s = id user →
       Availability.day s = Availability.day a →
       availabilities run.1 !! i
       = Some (Availability.mk (Availability.tutor s) (Availability.day s)
                 (Availability.subject s) (Availability.startTime s)
                 (Availability.endTime s) false))
  ∧ (∀ i s, availabilities db !! i = Some s →
       ¬ (Availability.tutor s = id user
          ∧ Availability.day s = Availability.day a) →
       availabilities run.1 !! i = Some s)
  ∧ (∀ i, availabilities db !! i = None → availabilities run.1 !! i = None)
  ∧ (Availability.tutor a ≠ id user →
     availabilities run.1 !! availabilityId = Some a).
Proof.
  intros Hrole Ha Hd Hfree Hday run. subst run.
  destruct (patchAvailability_disableDay tz user availabilityId req db a
              Hrole Ha Hd Hfree) as [_ Hok].
  rewrite (Hok Hday). simpl.
  assert (Hother : ∀ i s, availabilities db !! i = Some s →
    ¬ (Availability.tutor s = id user ∧ Availability.day s = Availability.day a) →
    (TutorRoutes.disableSlot (id user) (Availability.day a)
       <$> availabilities db) !! i = Some s).
  { intros i s Hi Hn. rewrite lookup_fmap, Hi. simpl.
    unfold TutorRoutes.disableSlot. by destruct (decide _). }
  split; [done|]. split.
  { intros i s Hi Ht Hs. rewrite lookup_fmap, Hi. simpl.
    unfold TutorRoutes.disableSlot. destruct (decide _) as [|Hn]; [done|tauto]. }
  split; [exact Hother|]. split.
  { intros i Hi. by rewrite lookup_fmap, Hi. }
  intros Hne. apply Hother; [done | tauto].
Qed.

(** Tutor 2 disables the day of slot 10, which belongs to tutor 1. *)
Lemma X6_disable_day_effect_witness :
  role Sample.tutor2 = "tutor"
  ∧ availabilities Sample.oneSlot !! 10%nat = Some Sample.slot10
  ∧ code (TutorRoutes.patchAvailability 0 Sample.tutor2 10%nat
            (TutorRoutes.mkPatchReq None None None true None)
            Sample.oneSlot).2 = 200%nat
  ∧ availabilities
      (TutorRoutes.patchAvailability 0 Sample.tutor2 10%nat
         (TutorRoutes.mkPatchReq None None None true None)
         Sample.oneSlot).1 !! 10%nat = Some Sample.slot10.
Proof.
  assert (Hfree : ∀ lo hi,
    ¬ hasBooking (tutorBookings Sample.oneSlot) 2 lo hi).
  { intros lo hi (i & b & Hi & _). simpl in Hi. by rewrite lookup_empty in Hi. }
  split; [reflexivity|]. split; [reflexivity|].
  destruct (X6_disable_day_effect 0 Sample.tutor2 10%nat
              (TutorRoutes.mkPatchReq None None None true None)
              Sample.oneSlot Sample.slot10 eq_refl eq_refl eq_refl
              (Hfree _ _) (Hfree _ _)) as (Hcode & _ & _ & _ & Hkept).
  split; [exact Hcode|]. apply Hkept. discriminate.
Defined.

(** ** Bookings and the slots they lock *)

(** X7.  A booking locks the slot it falls in, and cancelling it does not
    unlock the slot.  After a student books a tutor at an instant inside
    [[startTime, endTime)] of a stored slot, that tutor's DELETE and PATCH
    of the slot are both refused with 400; after the student cancels the
    booking, its status is cancelled and the DELETE is still refused: the
    conflict query does not look at the status. *)
Theorem X7_booking_locks_slot (tz : Z) (student tutorUser : AuthUser)
    (availabilityId : ObjectId) (a : Availability.t) (subject : string)
    (t : Z) (req : TutorRoutes.PatchReq) (db : DB) :
  role student = "student" →
  role tutorUser = "tutor" →
  availabilities db !! availabilityId = Some a →
  Availability.startTime a ≤ t → t < Availability.endTime a →
  let db1 :=
    (BookingRoutes.postBooking student
       (BookingRoutes.mkPostReq (id tutorUser) subject t) db).1 in
  let db2 :=
    (BookingRoutes.patchBooking student (nextId db)
       (BookingRoutes.mkPatchReq (Some "cancelled") None) db1).1 in
  TutorRoutes.deleteAvailability tutorUser availabilityId db1
  = (db1, Res 400 (Message
       "Cannot delete availability, there are bookings for this slot"))
  ∧ TutorRoutes.patchAvailability tz tutorUser availabilityId req db1
    = (db1, Res 400 (Message
         "Cannot update this availability as it is already booked"))
  ∧ TutorBooking.status <$> tutorBookings db2 !! nextId db = Some "cancelled"
  ∧ TutorRoutes.deleteAvailability tutorUser availabilityId db2
    = (db2, Res 400 (Message
         "Cannot delete availability, there are bookings for this slot")).
Proof.
  intros Hs Ht Ha Hlo Hhi db1 db2.
  set (booking := TutorBooking.mk (id student) (id tutorUser) subject t "pending").
  assert (Hdb1 : db1 = with_tutorBookings (insert (nextId db) booking)
                         (fresh_id db).2).
  { subst db1. unfold BookingRoutes.postBooking.
    by destruct (decide (role student ≠ "student")); [congruence|]. }
  assert (Hb1 : tutorBookings db1 !! nextId db = Some booking)
    by (rewrite Hdb1; apply lookup_insert_eq).
  assert (Hdb2 : db2 = with_tutorBookings
            (insert (nextId db) (BookingRoutes.setStatus "cancelled" booking))
            db1).
  { subst db2. unfold BookingRoutes.patchBooking. rewrite Hb1.
    cbn [BookingRoutes.p_status BookingRoutes.p_bookingTime].
    rewrite statusUpdate_permitted by tauto. reflexivity. }
  assert (Ha1 : availabilities db1 !! availabilityId = Some a)
    by by rewrite Hdb1.
  assert (Ha2 : availabilities db2 !! availabilityId = Some a)
    by by rewrite Hdb2.
  assert (Hbooked1 : hasBooking (tutorBookings db1) (id tutorUser)
            (Availability.startTime a) (Availability.endTime a)).
  { exists (nextId db), booking. by rewrite Hb1. }
  assert (Hb2 : tutorBookings db2 !! nextId db
                = Some (BookingRoutes.setStatus "cancelled" booking))
    by (rewrite Hdb2; apply lookup_insert_eq).
  assert (Hbooked2 : hasBooking (tutorBookings db2) (id tutorUser)
            (Availability.startTime a) (Availability.endTime a)).
  { exists (nextId db), (BookingRoutes.setStatus "cancelled" booking).
    by rewrite Hb2. }
  split; [by apply (deleteAvailability_booked _ _ _ a)|].
  split; [by apply (patchAvailability_booked _ _ _ _ _ a)|].
  split; [by rewrite Hb2|].
  by apply (deleteAvailability_booked _ _ _ a).
Qed.

(** Student 3 books tutor 1 at 09:30, inside slot 10, and cancels. *)
Lemma X7_booking_locks_slot_witness :
  availabilities Sample.oneSlot !! 10%nat = Some Sample.slot10
  ∧ code (TutorRoutes.deleteAvailability Sample.tutor1 10%nat
            (BookingRoutes.patchBooking Sample.student3 100%nat
               (BookingRoutes.mkPatchReq (Some "cancelled") None)
               (BookingRoutes.postBooking Sample.student3
                  (BookingRoutes.mkPostReq 1 "Math" (Sample.h 9 30))
                  Sample.oneSlot).1).1).2 = 400%nat.
Proof.
  split; [reflexivity|].
  destruct (X7_booking_locks_slot 0 Sample.student3 Sample.tutor1 10%nat
              Sample.slot10 "Math" (Sample.h 9 30)
              (TutorRoutes.mkPatchReq None None None false None)
              Sample.oneSlot eq_refl eq_refl eq_refl
              ltac:(vm_compute; discriminate) ltac:(vm_compute; reflexivity))
    as (_ & _ & _ & Hdel).
  apply (f_equal (λ x : DB * Response, code x.2)) in Hdel. exact Hdel.
Defined.

(** ** The listings *)

#[local] Instance byDayThenStartTime_transitive : Transitive byDayThenStartTime.
Proof. unfold byDayThenStartTime. intros x y z ? ?. lia. Qed.

#[local] Instance byDayThenStartTime_total : Total byDayThenStartTime.
Proof. unfold byDayThenStartTime. intros x y. lia. Qed.

Lemma getAllAvailability_elem (user : AuthUser) (db : DB)
    (l : list (ObjectId * Availability.t)) (i : ObjectId) (a : Availability.t) :
  getAllAvailability user db = inr l →
  (i, a) ∈ l
  ↔ availabilities db !! i = Some a ∧ Availability.isActive a = true.
Proof.
  unfold getAllAvailability. destruct (decide _); [discriminate|].
  intros [= <-]. rewrite merge_sort_Permutation, list_elem_of_filter.
  rewrite elem_of_map_to_list. simpl. tauto.
Qed.

Lemma getAvailability_tutor (user : AuthUser) (db : DB) :
  role user = "tutor" →
  ∃ l, getAvailability user db = inr l ∧ NoDup l
       ∧ ∀ i a, (i, a) ∈ l
                ↔ availabilities db !! i = Some a
                  ∧ Availability.tutor a = id user.
Proof.
  unfold getAvailability. intros Hrole.
  destruct (decide (role user ≠ "tutor")); [done|].
  eexists. split; [reflexivity|].
  split; [apply NoDup_filter, NoDup_map_to_list|].
  intros i a. rewrite list_elem_of_filter, elem_of_map_to_list. simpl. tauto.
Qed.

(** X8.  GET /availability answers a tutor with exactly the slot documents
    whose [tutor] is the requester, active or not, each once. *)
Theorem X8_own_listing (user : AuthUser) (db : DB) :
  role user = "tutor" →
  ∃ l, getAvailability user db = inr l ∧ NoDup l
       ∧ ∀ i a, (i, a) ∈ l
                ↔ availabilities db !! i = Some a
                  ∧ Availability.tutor a = id user.
Proof. apply getAvailability_tutor. Qed.

(** Tutor 2 owns no slot: the listing is empty although slot 10 exists. *)
Lemma X8_own_listing_witness :
  role Sample.tutor2 = "tutor"
  ∧ ∃ l, getAvailability Sample.tutor2 Sample.oneSlot = inr l
         ∧ (10%nat, Sample.slot10) ∉ l.
Proof.
  split; [reflexivity|].
  destruct (X8_own_listing Sample.tutor2 Sample.oneSlot eq_refl)
    as (l & Hget & _ & Hin).
  exists l. split; [exact Hget|]. intros [_ Ht]%Hin. discriminate Ht.
Defined.

(** X9.  The listing follows the slot collection.  After a request of one
    slot is accepted, the tutor's listing holds the new slot under its new
    id; after the tutor deletes that slot (no booking of the tutor lies in
    its window), the listing has no entry for the id. *)
Theorem X9_listing_after_post_and_delete (now : Z) (user : AuthUser)
    (slot : TutorRoutes.SlotReq) (db : DB) :
  code (TutorRoutes.postAvailability now user [slot] db).2 = 201%nat →
  let db1 := (TutorRoutes.postAvailability now user [slot] db).1 in
  (∃ l, getAvailability user db1 = inr l
        ∧ (nextId db, slotOf (id user) slot) ∈ l)
  ∧ (¬ hasBooking (tutorBookings db) (id user) (TutorRoutes.startTime slot)
         (TutorRoutes.endTime slot) →
     let db2 := (TutorRoutes.deleteAvailability user (nextId db) db1).1 in
     ∃ l, getAvailability user db2 = inr l ∧ ∀ a, (nextId db, a) ∉ l).
Proof.
  intros Hok db1.
  apply postAvailability_single_inv in Hok as (Hrole & Hnow & Hfloor).
  assert (Hdb1 : db1 =
    TutorRoutes.pushTutoringAvailability (id user) [nextId db]
      (with_availabilities (insert (nextId db) (slotOf (id user) slot))
         (fresh_id db).2)).
  { subst db1. rewrite (postAvailability_single now user slot db Hrole Hnow).
    by destruct (decide _); [lia|]. }
  assert (Hnew : availabilities db1 !! nextId db
                 = Some (slotOf (id user) slot))
    by (rewrite Hdb1; apply lookup_insert_eq).
  split.
  - destruct (getAvailability_tutor user db1 Hrole) as (l & Hget & _ & Hin).
    exists l. split; [done|]. by apply Hin.
  - intros Hfree db2.
    assert (Hdb2 : db2 = with_availabilities (delete (nextId db)) db1).
    { subst db2.
      rewrite (deleteAvailability_free _ _ _ (slotOf (id user) slot));
        [done | done | done |].
      by rewrite Hdb1. }
    destruct (getAvailability_tutor user db2 Hrole) as (l & Hget & _ & Hin).
    exists l. split; [done|]. intros a [Hi _]%Hin.
    rewrite Hdb2 in Hi. simpl in Hi. by rewrite lookup_delete_eq in Hi.
Qed.

Lemma X9_listing_after_post_and_delete_witness :
  code (TutorRoutes.postAvailability (Sample.h 8 0) Sample.tutor1
          [Sample.nineToTen] Sample.noSlots).2 = 201%nat
  ∧ ∃ l, getAvailability Sample.tutor1
           (TutorRoutes.postAvailability (Sample.h 8 0) Sample.tutor1
              [Sample.nineToTen] Sample.noSlots).1 = inr l
         ∧ (100%nat, slotOf 1 Sample.nineToTen) ∈ l.
Proof.
  split; [reflexivity|].
  apply (X9_listing_after_post_and_delete (Sample.h 8 0) Sample.tutor1
           Sample.nineToTen Sample.noSlots eq_refl).
Defined.

(** X10.  GET /availability/all answers a student with exactly the active
    slots of all tutors, ordered by day and, within a day, by start time. *)
Theorem X10_student_listing (user : AuthUser) (db : DB) :
  role user = "student" →
  ∃ l, getAllAvailability user db = inr l
       ∧ (∀ i a, (i, a) ∈ l
                 ↔ availabilities db !! i = Some a
                   ∧ Availability.isActive a = true)
       ∧ StronglySorted byDayThenStartTime l.
Proof.
  intros Hrole.
  assert (Hget : ∃ l, getAllAvailability user db = inr l).
  { unfold getAllAvailability.
    destruct (decide (role user ≠ "student")); [done | by eexists]. }
  destruct Hget as [l Hget]. exists l. split; [done|]. split.
  - intros i a. apply (getAllAvailability_elem user db l i a Hget).
  - unfold getAllAvailability in Hget.
    destruct (decide (role user ≠ "student")); [done|].
    injection Hget as <-. apply StronglySorted_merge_sort; apply _.
Qed.

Lemma X10_student_listing_witness :
  role Sample.student3 = "student"
  ∧ ∃ l, getAllAvailability Sample.student3 Sample.oneSlot = inr l
         ∧ (10%nat, Sample.slot10) ∈ l.
Proof.
  split; [reflexivity|].
  destruct (X10_student_listing Sample.student3 Sample.oneSlot eq_refl)
    as (l & Hget & Hin & _).
  exists l. split; [exact Hget|]. apply Hin. split; reflexivity.
Defined.

(** X11.  After a successful day disable the student listing shows no slot
    of that tutor for that day. *)
Theorem X11_disabled_day_not_listed (tz : Z) (user student : AuthUser)
    (availabilityId : ObjectId) (req : TutorRoutes.PatchReq) (db : DB)
    (a : Availability.t) (l : list (ObjectId * Availability.t)) :
  role user = "tutor" →
  availabilities db !! availabilityId = Some a →
  TutorRoutes.p_disableDay req = true →
  ¬ hasBooking (tutorBookings db) (id user) (Availability.startTime a)
      (Availability.endTime a) →
  ¬ hasBooking (tutorBookings db) (id user) (Availability.day a)
      (setHours tz (Availability.day a) 23 59 59 999) →
  getAllAvailability student
    (TutorRoutes.patchAvailability tz user availabilityId req db).1 = inr l →
  ∀ i s, (i, s) ∈ l →
    ¬ (Availability.tutor s = id user
       ∧ Availability.day s = Availability.day a).
Proof.
  intros Hrole Ha Hd Hfree Hday Hget i s Hin [Ht Hs].
  apply (getAllAvailability_elem _ _ _ _ _ Hget) in Hin as [Hi Hactive].
  destruct (patchAvailability_disableDay tz user availabilityId req db a
              Hrole Ha Hd Hfree) as [_ Hok].
  rewrite (Hok Hday) in Hi. simpl in Hi. rewrite lookup_fmap in Hi.
  destruct (availabilities db !! i) as [s0|]; [|discriminate].
  injection Hi as <-. unfold TutorRoutes.disableSlot in *.
  destruct (decide _) as [|Hn]; [discriminate Hactive | tauto].
Qed.

(** Tutor 1 disables day 0; student 3 then sees an empty listing. *)
Lemma X11_disabled_day_not_listed_witness :
  role Sample.tutor1 = "tutor"
  ∧ getAllAvailability Sample.student3
      (TutorRoutes.patchAvailability 0 Sample.tutor1 10%nat
         (TutorRoutes.mkPatchReq None None None true None) Sample.oneSlot).1
    = inr []
  ∧ ∀ i s, (i, s) ∈ @nil (ObjectId * Availability.t) →
      ¬ (Availability.tutor s = 1%nat ∧ Availability.day s = 0).
Proof.
  assert (Hfree : ∀ lo hi,
    ¬ hasBooking (tutorBookings Sample.oneSlot) 1 lo hi).
  { intros lo hi (i & b & Hi & _). simpl in Hi. by rewrite lookup_empty in Hi. }
  split; [reflexivity|]. split; [reflexivity|].
  apply (X11_disabled_day_not_listed 0 Sample.tutor1 Sample.student3 10%nat
           (TutorRoutes.mkPatchReq None None None true None) Sample.oneSlot
           Sample.slot10 [] eq_refl eq_refl eq_refl (Hfree _ _) (Hfree _ _)
           eq_refl).
Defined.

(** ** What each router writes *)

(** The loop of POST /availability writes slots only and never reuses an
    identifier. *)
Lemma addSlots_frame (now : Z) (tutorId : ObjectId)
    (availability : list TutorRoutes.SlotReq) :
  ∀ (createdSlots : list ObjectId) (db : DB),
    let run := TutorRoutes.addSlots now tutorId availability createdSlots db in
    users run.1 = users db ∧ tutorBookings run.1 = tutorBookings db
    ∧ studyGroups run.1 = studyGroups db
    ∧ (freshIds db → freshIds run.1).
Proof.
  induction availability as [|slot rest IH]; intros createdSlots db; simpl.
  { done. }
  destruct (decide (TutorRoutes.startTime slot < now)); [done|].
  destruct (decide (TutorRoutes.startTime slot < _)); [done|].
  simpl.
  destruct (IH (createdSlots ++ [nextId db])
              (with_availabilities
                 (insert (nextId db)
                    (Availability.mk tutorId (TutorRoutes.day slot)
                       (TutorRoutes.subject slot) (TutorRoutes.startTime slot)
                       (TutorRoutes.endTime slot) true))
                 (fresh_id db).2)) as (Hu & Hb & Hg & Hf).
  simpl in *. split; [done|]. split; [done|]. split; [done|].
  intros Hfresh. apply Hf. intros i Hi. simpl in *.
  destruct (Hfresh i ltac:(lia)) as (? & ? & ?).
  rewrite lookup_insert_ne by lia. done.
Qed.

Lemma tutorRoutes_frame (now tz : Z) (user : AuthUser) (r : Request) (db : DB) :
  (∃ availability, r = PostAvailability availability)
  ∨ (∃ availabilityId req, r = PatchAvailability availabilityId req)
  ∨ (∃ availabilityId, r = DeleteAvailability availabilityId) →
  let db' := (handle now tz user r db).1 in
  tutorBookings db' = tutorBookings db ∧ studyGroups db' = studyGroups db
  ∧ (∀ u, User.joinedStudyGroups <$> users db' !! u
          = User.joinedStudyGroups <$> users db !! u)
  ∧ (freshIds db → freshIds db').
Proof.
  intros [[availability ->] | [(availabilityId & req & ->) | [availabilityId ->]]];
    simpl.
  - unfold TutorRoutes.postAvailability.
    destruct (decide _); [done|].
    pose proof (addSlots_frame now (id user) availability [] db) as Hframe.
    destruct (TutorRoutes.addSlots now (id user) availability [] db)
      as [db1 [early | createdSlots]]; simpl in *;
      destruct Hframe as (Hu & Hb & Hg & Hf).
    + rewrite Hu. done.
    + split; [done|]. split; [done|]. split; [|done].
      intros u. rewrite Hu. destruct (decide (u = id user)) as [-> | Hne].
      * rewrite lookup_alter_eq. by destruct (users db !! id user).
      * by rewrite lookup_alter_ne.
  - unfold TutorRoutes.patchAvailability.
    destruct (decide _); [done|].
    destruct (availabilities db !! availabilityId) as [a|] eqn:Ha; [|done].
    destruct (decide _); [done|].
    destruct (TutorRoutes.p_disableDay req); [destruct (decide _)|];
      simpl; (split; [done|]); (split; [done|]); (split; [done|]); [|done|].
    + intros Hfresh i Hi. destruct (Hfresh i Hi) as (Hav & ? & ?).
      simpl. by rewrite lookup_fmap, Hav.
    + intros Hfresh i Hi. destruct (Hfresh i Hi) as (Hav & ? & ?).
      simpl. rewrite lookup_insert_ne; [done|].
      intros <-. congruence.
  - unfold TutorRoutes.deleteAvailability.
    destruct (decide _); [done|].
    destruct (availabilities db !! availabilityId) as [a|] eqn:Ha; [|done].
    destruct (decide _); [done|].
    simpl. split; [done|]. split; [done|]. split; [done|].
    intros Hfresh i Hi. destruct (Hfresh i Hi) as (Hav & ? & ?).
    simpl. rewrite lookup_delete_ne; [done|]. intros <-. congruence.
Qed.

(** The status block either leaves the booking, or writes a status that
    the requester's role permits. *)
Lemma statusUpdate_inr (user : AuthUser) (status : option string)
    (b b' : TutorBooking.t) :
  BookingRoutes.statusUpdate user status b = inr b' →
  b' = b
  ∨ ∃ s, b' = BookingRoutes.setStatus s b
         ∧ ((role user = "tutor" ∧ (s = "confirmed" ∨ s = "completed"))
            ∨ (role user = "student" ∧ s = "cancelled")).
Proof.
  unfold BookingRoutes.statusUpdate.
  destruct status as [s|]; [|intros [= <-]; by left].
  destruct (truthy s); [|intros [= <-]; by left].
  destruct (decide _); [discriminate|].
  destruct (decide (role user = "tutor")).
  { destruct (decide _); [|discriminate].
    intros [= <-]. right. exists s. tauto. }
  destruct (decide (role user = "student")); [|intros [= <-]; by left].
  destruct (decide _); [|discriminate].
  intros [= <-]. right. exists s. tauto.
Qed.

(** The bookings after PATCH /bookings/:id. *)
Lemma patchBooking_bookings (user : AuthUser) (bookingId : ObjectId)
    (req : BookingRoutes.PatchReq) (db : DB) :
  let db' := (BookingRoutes.patchBooking user bookingId req db).1 in
  db' = db
  ∨ ∃ b b0 b',
      tutorBookings db !! bookingId = Some b
      ∧ BookingRoutes.statusUpdate user (BookingRoutes.p_status req) b = inr b0
      ∧ (b' = b0 ∨ ∃ t, b' = BookingRoutes.setBookingTime t b0)
      ∧ db' = with_tutorBookings (insert bookingId b') db.
Proof.
  unfold BookingRoutes.patchBooking.
  destruct (tutorBookings db !! bookingId) as [b|] eqn:Hb; [|by left].
  destruct (BookingRoutes.statusUpdate user _ b) as [early | b0] eqn:Hs;
    [by left|].
  right. exists b, b0. simpl.
  destruct (BookingRoutes.p_bookingTime req) as [t|]; eexists;
    (split; [done|]); (split; [done|]); (split; [|done]); eauto.
Qed.

(** A stored document has an identifier that was generated. *)
Lemma freshIds_lt (db : DB) :
  freshIds db →
  (∀ i, is_Some (availabilities db !! i) → (i < nextId db)%nat)
  ∧ (∀ i, is_Some (tutorBookings db !! i) → (i < nextId db)%nat)
  ∧ (∀ i, is_Some (studyGroups db !! i) → (i < nextId db)%nat).
Proof.
  intros Hf. repeat split; intros i [x Hx];
    destruct (decide (i < nextId db)%nat) as [|Hge]; try done;
    destruct (Hf i ltac:(lia)) as (? & ? & ?); congruence.
Qed.

(** No handler reuses the identifier of a stored document. *)
Lemma handle_freshIds (now tz : Z) (user : AuthUser) (r : Request) (db : DB) :
  freshIds db → freshIds (handle now tz user r db).1.
Proof.
  intros Hf. destruct (freshIds_lt db Hf) as (Hav & Hbk & Hgr).
  destruct r as [availability | availabilityId req | availabilityId
                | req | bookingId req | req | groupId | groupId
                | groupId req | groupId];
    try (apply tutorRoutes_frame; [solve [eauto 6] | done]); unfold handle.
  - unfold BookingRoutes.postBooking. destruct (decide _); [done|]. simpl.
    intros i Hi. simpl in *. destruct (Hf i ltac:(lia)) as (? & ? & ?).
    by rewrite lookup_insert_ne by lia.
  - destruct (patchBooking_bookings user bookingId req db)
      as [-> | (b & b0 & b' & Hb & _ & _ & ->)]; [done|].
    intros i Hi. simpl in *. destruct (Hf i Hi) as (? & ? & ?).
    rewrite lookup_insert_ne; [done|].
    specialize (Hbk bookingId ltac:(by eexists)). lia.
  - unfold StudyGroupRoutes.postStudyGroup. destruct (decide _); [done|].
    simpl. intros i Hi. simpl in *. destruct (Hf i ltac:(lia)) as (? & ? & ?).
    by rewrite lookup_insert_ne by lia.
  - unfold StudyGroupRoutes.joinStudyGroup.
    destruct (studyGroups db !! groupId) as [g|] eqn:Hg; [|done].
    repeat (destruct (decide _); [done|]). simpl.
    intros i Hi. simpl in *. destruct (Hf i Hi) as (? & ? & ?).
    rewrite lookup_insert_ne; [done|].
    specialize (Hgr groupId ltac:(by eexists)). lia.
  - unfold StudyGroupRoutes.leaveStudyGroup.
    destruct (studyGroups db !! groupId) as [g|] eqn:Hg; [|done].
    repeat (destruct (decide _); [done|]). simpl.
    intros i Hi. simpl in *. destruct (Hf i Hi) as (? & ? & ?).
    rewrite lookup_insert_ne; [done|].
    specialize (Hgr groupId ltac:(by eexists)). lia.
  - unfold StudyGroupRoutes.patchStudyGroup.
    destruct (studyGroups db !! groupId) as [g|] eqn:Hg; [|done].
    destruct (decide _); [done|]. destruct (_ && _); [done|]. simpl.
    intros i Hi. simpl in *. destruct (Hf i Hi) as (? & ? & ?).
    rewrite lookup_insert_ne; [done|].
    specialize (Hgr groupId ltac:(by eexists)). lia.
  - unfold StudyGroupRoutes.deleteStudyGroup.
    destruct (studyGroups db !! groupId) as [g|] eqn:Hg; [|done].
    repeat (destruct (decide _); [done|]). simpl.
    intros i Hi. simpl in *. destruct (Hf i Hi) as (? & ? & ?).
    rewrite lookup_delete_ne; [done|].
    specialize (Hgr groupId ltac:(by eexists)). lia.
Qed.

Lemma serve_freshIds (tz : Z) (calls : list Call) :
  ∀ db, freshIds db → freshIds (serve tz calls db).
Proof.
  induction calls as [|c calls IH]; intros db Hf; [done|].
  simpl. by apply IH, handle_freshIds.
Qed.

Lemma initial_freshIds (db : DB) : initial db → freshIds db.
Proof.
  intros (Ha & Hb & Hg & _) i _. rewrite Ha, Hb, Hg.
  by rewrite !lookup_empty.
Qed.

(** The bookings after any request. *)
Lemma handle_tutorBookings (now tz : Z) (user : AuthUser) (r : Request) (db : DB) :
  let db' := (handle now tz user r db).1 in
  tutorBookings db' = tutorBookings db
  ∨ (∃ req, r = PostBooking req
       ∧ tutorBookings db'
         = <[nextId db := TutorBooking.mk (id user) (BookingRoutes.tutor req)
                            (BookingRoutes.subject req)
                            (BookingRoutes.bookingTime req) "pending"]>
             (tutorBookings db))
  ∨ (∃ bookingId req b b0 b',
       r = PatchBooking bookingId req
       ∧ tutorBookings db !! bookingId = Some b
       ∧ BookingRoutes.statusUpdate user (BookingRoutes.p_status req) b = inr b0
       ∧ (b' = b0 ∨ ∃ t, b' = BookingRoutes.setBookingTime t b0)
       ∧ tutorBookings db' = <[bookingId := b']> (tutorBookings db)).
Proof.
  destruct r as [availability | availabilityId req | availabilityId
                | req | bookingId req | req | groupId | groupId
                | groupId req | groupId];
    try (left; apply tutorRoutes_frame; solve [eauto 6]); unfold handle.
  - unfold BookingRoutes.postBooking. destruct (decide _); [by left|].
    right. left. by exists req.
  - destruct (patchBooking_bookings user bookingId req db)
      as [-> | (b & b0 & b' & Hb & Hs & Ht & ->)]; [by left|].
    right. right. by exists bookingId, req, b, b0, b'.
  - left. unfold StudyGroupRoutes.postStudyGroup. by destruct (decide _).
  - left. unfold StudyGroupRoutes.joinStudyGroup.
    destruct (studyGroups db !! groupId); [|done].
    by repeat (destruct (decide _); [done|]).
  - left. unfold StudyGroupRoutes.leaveStudyGroup.
    destruct (studyGroups db !! groupId); [|done].
    by repeat (destruct (decide _); [done|]).
  - left. unfold StudyGroupRoutes.patchStudyGroup.
    destruct (studyGroups db !! groupId); [|done].
    destruct (decide _); [done|]. by destruct (_ && _).
  - left. unfold StudyGroupRoutes.deleteStudyGroup.
    destruct (studyGroups db !! groupId); [|done].
    by repeat (destruct (decide _); [done|]).
Qed.

(** ** Bookings over time *)

(** One request: a stored booking stays, with its parties and subject, and
    its status is kept or moved by a permitted PATCH of that booking. *)
Lemma handle_booking_kept (now tz : Z) (user : AuthUser) (r : Request)
    (db : DB) (i : ObjectId) (b : TutorBooking.t) :
  freshIds db →
  tutorBookings db !! i = Some b →
  ∃ b', tutorBookings (handle now tz user r db).1 !! i = Some b'
        ∧ TutorBooking.student b' = TutorBooking.student b
        ∧ TutorBooking.tutor b' = TutorBooking.tutor b
        ∧ TutorBooking.subject b' = TutorBooking.subject b
        ∧ (TutorBooking.status b' = TutorBooking.status b
           ∨ ((∃ req, r = PatchBooking i req)
              ∧ ((role user = "tutor"
                  ∧ (TutorBooking.status b' = "confirmed"
                     ∨ TutorBooking.status b' = "completed"))
                 ∨ (role user = "student"
                    ∧ TutorBooking.status b' = "cancelled")))).
Proof.
  intros Hf Hb.
  destruct (handle_tutorBookings now tz user r db)
    as [-> | [(req & -> & ->) | (j & req & bj & b0 & b' & -> & Hj & Hs & Ht & ->)]].
  - exists b. tauto.
  - exists b. rewrite lookup_insert_ne; [tauto|].
    destruct (freshIds_lt db Hf) as (_ & Hbk & _).
    specialize (Hbk i ltac:(by eexists)). lia.
  - destruct (decide (j = i)) as [-> | Hne].
    + rewrite Hb in Hj. injection Hj as <-.
      exists b'. rewrite lookup_insert_eq. split; [done|].
      apply statusUpdate_inr in Hs as [-> | (s & -> & Hperm)];
        destruct Ht as [-> | [t ->]]; simpl; repeat split; eauto 10.
    + exists b. rewrite lookup_insert_ne by done. tauto.
Qed.

(** X12.  Bookings are never deleted and never change hands: across any
    sequence of requests to the write routes, a stored booking remains
    stored under its id with the same student, tutor and subject. *)
Theorem X12_bookings_persist (tz : Z) (calls : list Call) (db : DB)
    (i : ObjectId) (b : TutorBooking.t) :
  freshIds db →
  tutorBookings db !! i = Some b →
  ∃ b', tutorBookings (serve tz calls db) !! i = Some b'
        ∧ TutorBooking.student b' = TutorBooking.student b
        ∧ TutorBooking.tutor b' = TutorBooking.tutor b
        ∧ TutorBooking.subject b' = TutorBooking.subject b.
Proof.
  revert db b. induction calls as [|c calls IH]; intros db b Hf Hb; simpl.
  { exists b. tauto. }
  destruct (handle_booking_kept (c_now c) tz (c_user c) (c_request c) db i b
              Hf Hb) as (b1 & Hb1 & Hs & Ht & Hsub & _).
  destruct (IH _ b1 (handle_freshIds _ _ _ _ _ Hf) Hb1)
    as (b' & Hb' & Hs' & Ht' & Hsub').
  exists b'. split; [done|]. split; [congruence|]. split; congruence.
Qed.

Lemma booked_freshIds : freshIds Sample.booked.
Proof.
  intros i Hi. simpl in *.
  rewrite !lookup_singleton_ne by lia. by rewrite lookup_empty.
Qed.

Lemma X12_bookings_persist_witness :
  freshIds Sample.booked
  ∧ tutorBookings Sample.booked !! 20%nat = Some Sample.booking20
  ∧ ∃ b', tutorBookings
            (serve 0
               [mkCall 0 Sample.student4
                  (PatchBooking 20%nat
                     (BookingRoutes.mkPatchReq (Some "cancelled") (Some 5)));
                mkCall 0 Sample.tutor2 (DeleteAvailability 10%nat)]
               Sample.booked) !! 20%nat = Some b'
          ∧ TutorBooking.student b' = 3%nat.
Proof.
  split; [exact booked_freshIds|]. split; [reflexivity|].
  destruct (X12_bookings_persist 0
              [mkCall 0 Sample.student4
                 (PatchBooking 20%nat
                    (BookingRoutes.mkPatchReq (Some "cancelled") (Some 5)));
               mkCall 0 Sample.tutor2 (DeleteAvailability 10%nat)]
              Sample.booked 20%nat Sample.booking20 booked_freshIds eq_refl)
    as (b' & Hb' & Hs & _).
  exists b'. split; [exact Hb' | exact Hs].
Defined.

(** X13.  The status of a stored booking changes only through a PATCH of
    that booking with a permitted pair: after one request the status is
    the old one, unless the request is a PATCH of this booking by a tutor
    (new status confirmed or completed) or by a student (new status
    cancelled). *)
Theorem X13_status_changes_only_by_permitted_patch (now tz : Z)
    (user : AuthUser) (r : Request) (db : DB) (i : ObjectId)
    (b b' : TutorBooking.t) :
  freshIds db →
  tutorBookings db !! i = Some b →
  tutorBookings (handle now tz user r db).1 !! i = Some b' →
  TutorBooking.status b' ≠ TutorBooking.status b →
  (∃ req, r = PatchBooking i req)
  ∧ ((role user = "tutor"
      ∧ (TutorBooking.status b' = "confirmed"
         ∨ TutorBooking.status b' = "completed"))
     ∨ (role user = "student" ∧ TutorBooking.status b' = "cancelled")).
Proof.
  intros Hf Hb Hb' Hne.
  destruct (handle_booking_kept now tz user r db i b Hf Hb)
    as (b1 & Hb1 & _ & _ & _ & Hstatus).
  rewrite Hb' in Hb1. injection Hb1 as <-.
  destruct Hstatus as [? | ?]; [done | done].
Qed.

Lemma X13_status_changes_only_by_permitted_patch_witness :
  freshIds Sample.booked
  ∧ role Sample.student4 = "student"
  ∧ ∃ req, PatchBooking 20%nat
             (BookingRoutes.mkPatchReq (Some "cancelled") None)
           = PatchBooking 20%nat req.
Proof.
  split; [exact booked_freshIds|]. split; [reflexivity|].
  apply (X13_status_changes_only_by_permitted_patch 0 0 Sample.student4
           (PatchBooking 20%nat
              (BookingRoutes.mkPatchReq (Some "cancelled") None))
           Sample.booked 20%nat Sample.booking20
           (BookingRoutes.setStatus "cancelled" Sample.booking20)
           booked_freshIds eq_refl eq_refl).
  discriminate.
Defined.

(** X14.  Pending is the initial status only: across any sequence of
    requests, a booking that has left pending is never pending again. *)
Theorem X14_never_back_to_pending (tz : Z) (calls : list Call) (db : DB)
    (i : ObjectId) (b b' : TutorBooking.t) :
  freshIds db →
  tutorBookings db !! i = Some b →
  TutorBooking.status b ≠ "pending" →
  tutorBookings (serve tz calls db) !! i = Some b' →
  TutorBooking.status b' ≠ "pending".
Proof.
  revert db b. induction calls as [|c calls IH]; intros db b Hf Hb Hnp; simpl.
  { intros Hb'. congruence. }
  destruct (handle_booking_kept (c_now c) tz (c_user c) (c_request c) db i b
              Hf Hb) as (b1 & Hb1 & _ & _ & _ & Hstatus).
  apply (IH _ b1 (handle_freshIds _ _ _ _ _ Hf) Hb1).
  destruct Hstatus as [-> | [_ [[_ [-> | ->]] | [_ ->]]]]; done.
Qed.

Lemma completed_freshIds : freshIds Sample.completed.
Proof.
  intros i Hi. simpl in *.
  rewrite !lookup_singleton_ne by lia. by rewrite lookup_empty.
Qed.

Lemma X14_never_back_to_pending_witness :
  freshIds Sample.completed
  ∧ tutorBookings Sample.completed !! 20%nat = Some Sample.completed20
  ∧ TutorBooking.status Sample.completed20 ≠ "pending"
  ∧ TutorBooking.status
      (BookingRoutes.setStatus "cancelled" Sample.completed20) ≠ "pending".
Proof.
  split; [exact completed_freshIds|]. split; [reflexivity|].
  split; [discriminate|].
  apply (X14_never_back_to_pending 0
           [mkCall 0 Sample.student3
              (PatchBooking 20%nat
                 (BookingRoutes.mkPatchReq (Some "cancelled") None))]
           Sample.completed 20%nat Sample.completed20
           (BookingRoutes.setStatus "cancelled" Sample.completed20)
           completed_freshIds eq_refl ltac:(discriminate) eq_refl).
Defined.

(** One request keeps the statuses among the four known ones. *)
Lemma handle_statusesKnown (now tz : Z) (user : AuthUser) (r : Request)
    (db : DB) :
  statusesKnown db → statusesKnown (handle now tz user r db).1.
Proof.
  intros Hk i b.
  destruct (handle_tutorBookings now tz user r db)
    as [-> | [(req & -> & ->) | (j & req & bj & b0 & b' & -> & Hj & Hs & Ht & ->)]].
  - apply Hk.
  - rewrite lookup_insert_Some. intros [[_ <-] | [_ Hb]]; [|by eapply Hk].
    simpl. left.
  - rewrite lookup_insert_Some. intros [[_ <-] | [_ Hb]]; [|by eapply Hk].
    specialize (Hk j bj Hj).
    apply statusUpdate_inr in Hs as [-> | (s & -> & Hperm)];
      destruct Ht as [-> | [t ->]]; simpl; try done;
      destruct Hperm as [[_ [-> | ->]] | [_ ->]];
      rewrite !elem_of_cons; tauto.
Qed.

(** X15.  The status of every booking is one of pending, confirmed,
    completed, cancelled, and stays so across any sequence of requests. *)
Theorem X15_statuses_stay_known (tz : Z) (calls : list Call) (db : DB) :
  statusesKnown db → statusesKnown (serve tz calls db).
Proof.
  revert db. induction calls as [|c calls IH]; intros db Hk; [done|].
  simpl. by apply IH, handle_statusesKnown.
Qed.

Lemma X15_statuses_stay_known_witness :
  statusesKnown Sample.noSlots
  ∧ statusesKnown
      (serve 0
         [mkCall 0 Sample.student3
            (PostBooking (BookingRoutes.mkPostReq 1 "Math" 5));
          mkCall 0 Sample.tutor1
            (PatchBooking 100%nat
               (BookingRoutes.mkPatchReq (Some "confirmed") None))]
         Sample.noSlots).
Proof.
  assert (Hk : statusesKnown Sample.noSlots).
  { intros i b Hi. simpl in Hi. by rewrite lookup_empty in Hi. }
  split; [exact Hk|]. by apply X15_statuses_stay_known.
Defined.

(** ** Study groups over time *)

(** The groups and the user documents after any request: nothing that
    concerns groups changes, or one of the five group handlers wrote. *)
Lemma handle_studyGroups (now tz : Z) (user : AuthUser) (r : Request) (db : DB) :
  let db' := (handle now tz user r db).1 in
  (studyGroups db' = studyGroups db
   ∧ ∀ u, User.joinedStudyGroups <$> users db' !! u
          = User.joinedStudyGroups <$> users db !! u)
  ∨ (∃ req, r = PostStudyGroup req
       ∧ studyGroups db'
         = <[nextId db := StudyGroup.mk (StudyGroupRoutes.title req)
               (StudyGroupRoutes.subject req) (StudyGroupRoutes.description req)
               (StudyGroupRoutes.date req) (StudyGroupRoutes.time req)
               (StudyGroupRoutes.duration req) (id user) [id user]]>
             (studyGroups db)
       ∧ users db' = users (StudyGroupRoutes.pushJoined (id user) (nextId db) db))
  ∨ (∃ groupId g, r = JoinStudyGroup groupId
       ∧ studyGroups db !! groupId = Some g
       ∧ StudyGroup.creator g ≠ id user
       ∧ (id user ∉ StudyGroup.participants g)
       ∧ studyGroups db'
         = <[groupId := StudyGroupRoutes.setParticipants
               (StudyGroup.participants g ++ [id user]) g]> (studyGroups db)
       ∧ users db' = users (StudyGroupRoutes.pushJoined (id user) groupId db))
  ∨ (∃ groupId g, r = LeaveStudyGroup groupId
       ∧ studyGroups db !! groupId = Some g
       ∧ StudyGroup.creator g ≠ id user
       ∧ studyGroups db'
         = <[groupId := StudyGroupRoutes.setParticipants
               (filter (λ p, p ≠ id user) (StudyGroup.participants g)) g]>
             (studyGroups db)
       ∧ users db' = users (StudyGroupRoutes.pullJoined (id user) groupId db))
  ∨ (∃ groupId req g, r = PatchStudyGroup groupId req
       ∧ studyGroups db !! groupId = Some g
       ∧ StudyGroup.creator g = id user
       ∧ studyGroups db'
         = <[groupId := StudyGroupRoutes.applyPatch req g]> (studyGroups db)
       ∧ users db' = users db)
  ∨ (∃ groupId g, r = DeleteStudyGroup groupId
       ∧ studyGroups db !! groupId = Some g
       ∧ StudyGroup.creator g = id user
       ∧ (∀ p, p ∈ StudyGroup.participants g → p = id user)
       ∧ studyGroups db' = delete groupId (studyGroups db)
       ∧ users db' = users (StudyGroupRoutes.pullJoined (id user) groupId db)).
Proof.
  destruct r as [availability | availabilityId req | availabilityId
                | req | bookingId req | req | groupId | groupId
                | groupId req | groupId];
    try (left; split; apply tutorRoutes_frame; solve [eauto 6]);
    unfold handle.
  - left. unfold BookingRoutes.postBooking. by destruct (decide _).
  - left. by destruct (patchBooking_bookings user bookingId req db)
      as [-> | (b & b0 & b' & _ & _ & _ & ->)].
  - unfold StudyGroupRoutes.postStudyGroup.
    destruct (decide _); [by left|]. right. left. by exists req.
  - unfold StudyGroupRoutes.joinStudyGroup.
    destruct (studyGroups db !! groupId) as [g|] eqn:Hg; [|by left].
    destruct (decide _); [by left|].
    destruct (decide _); [by left|].
    destruct (decide _); [by left|].
    right. right. left. by exists groupId, g.
  - unfold StudyGroupRoutes.leaveStudyGroup.
    destruct (studyGroups db !! groupId) as [g|] eqn:Hg; [|by left].
    destruct (decide _); [by left|].
    destruct (decide _); [by left|].
    destruct (decide _); [by left|].
    right. right. right. left. by exists groupId, g.
  - unfold StudyGroupRoutes.patchStudyGroup.
    destruct (studyGroups db !! groupId) as [g|] eqn:Hg; [|by left].
    destruct (decide _) as [|Hc]; [by left|]. apply dec_stable in Hc.
    destruct (_ && _); [by left|].
    do 4 right. left. by exists groupId, req, g.
  - unfold StudyGroupRoutes.deleteStudyGroup.
    destruct (studyGroups db !! groupId) as [g|] eqn:Hg; [|by left].
    destruct (decide _) as [|Hc]; [by left|]. apply dec_stable in Hc.
    destruct (decide _) as [|Hlen]; [by left|].
    do 5 right. exists groupId, g. rewrite Hc. repeat split; try done.
    intros p Hp. destruct (decide (p = id user)) as [|Hne]; [done|].
    exfalso. apply Hlen.
    assert (Hin : p ∈ filter (λ participant, participant ≠ id user)
                       (StudyGroup.participants g))
      by (by apply list_elem_of_filter).
    destruct (filter _ _); [by apply elem_of_nil in Hin | simpl; lia].
Qed.

(** One request keeps the creator among the participants of every group. *)
Lemma handle_creatorParticipates (now tz : Z) (user : AuthUser) (r : Request)
    (db : DB) :
  creatorParticipates db → creatorParticipates (handle now tz user r db).1.
Proof.
  intros Hc i g.
  destruct (handle_studyGroups now tz user r db)
    as [[-> _] | [(req & _ & -> & _)
       | [(j & gj & _ & Hj & _ & _ & -> & _)
       | [(j & gj & _ & Hj & Hne & -> & _)
       | [(j & req & gj & _ & Hj & _ & -> & _)
       | (j & gj & _ & Hj & _ & _ & -> & _)]]]]].
  - apply Hc.
  - rewrite lookup_insert_Some. intros [[_ <-] | [_ Hg]]; [|by eapply Hc].
    simpl. left.
  - rewrite lookup_insert_Some. intros [[_ <-] | [_ Hg]]; [|by eapply Hc].
    simpl. apply elem_of_app. left. by eapply Hc.
  - rewrite lookup_insert_Some. intros [[_ <-] | [_ Hg]]; [|by eapply Hc].
    simpl. apply list_elem_of_filter. split; [done | by eapply Hc].
  - rewrite lookup_insert_Some. intros [[_ <-] | [_ Hg]]; [|by eapply Hc].
    simpl. by eapply Hc.
  - rewrite lookup_delete_Some. intros [_ Hg]. by eapply Hc.
Qed.

(** One request keeps the participants of every group free of repeats. *)
Lemma handle_participantsNoDup (now tz : Z) (user : AuthUser) (r : Request)
    (db : DB) :
  participantsNoDup db → participantsNoDup (handle now tz user r db).1.
Proof.
  intros Hc i g.
  destruct (handle_studyGroups now tz user r db)
    as [[-> _] | [(req & _ & -> & _)
       | [(j & gj & _ & Hj & _ & Hnew & -> & _)
       | [(j & gj & _ & Hj & Hne & -> & _)
       | [(j & req & gj & _ & Hj & _ & -> & _)
       | (j & gj & _ & Hj & _ & _ & -> & _)]]]]].
  - apply Hc.
  - rewrite lookup_insert_Some. intros [[_ <-] | [_ Hg]]; [|by eapply Hc].
    simpl. apply NoDup_singleton.
  - rewrite lookup_insert_Some. intros [[_ <-] | [_ Hg]]; [|by eapply Hc].
    simpl. apply NoDup_app. split; [by eapply Hc|].
    split; [|apply NoDup_singleton].
    intros x Hx Hx'. apply list_elem_of_singleton in Hx'. by subst x.
  - rewrite lookup_insert_Some. intros [[_ <-] | [_ Hg]]; [|by eapply Hc].
    simpl. apply NoDup_filter. by eapply Hc.
  - rewrite lookup_insert_Some. intros [[_ <-] | [_ Hg]]; [|by eapply Hc].
    simpl. by eapply Hc.
  - rewrite lookup_delete_Some. intros [_ Hg]. by eapply Hc.
Qed.

Lemma initial_no_groups (db : DB) (i : ObjectId) (g : StudyGroup.t) :
  initial db → studyGroups db !! i = Some g → False.
Proof. intros (_ & _ & Hg & _). by rewrite Hg, lookup_empty. Qed.

(** X16.  In every store reached from an initial one by any sequence of
    requests, the creator of each group is among its participants and no
    group lists a participant twice. *)
Theorem X16_groups_well_formed (tz : Z) (calls : list Call) (db : DB) :
  initial db →
  creatorParticipates (serve tz calls db)
  ∧ participantsNoDup (serve tz calls db).
Proof.
  intros Hinit.
  assert (H0 : creatorParticipates db ∧ participantsNoDup db).
  { split; intros i g Hg; destruct (initial_no_groups db i g Hinit Hg). }
  clear Hinit. revert db H0.
  induction calls as [|c calls IH]; intros db [Hc Hn]; [done|].
  simpl. apply IH. split;
    [by apply handle_creatorParticipates | by apply handle_participantsNoDup].
Qed.

Lemma noSlots_initial : initial Sample.noSlots.
Proof.
  repeat split; try reflexivity.
  intros u doc. simpl. rewrite lookup_insert_Some, lookup_singleton_Some.
  intros [[_ <-] | [_ [_ <-]]]; reflexivity.
Qed.

Lemma X16_groups_well_formed_witness :
  initial Sample.noSlots
  ∧ creatorParticipates
      (serve 0
         [mkCall 0 Sample.student3
            (PostStudyGroup
               (StudyGroupRoutes.mkPostReq "Algebra" "Math" "Weekly"
                  "2030-01-07" "18:00" 60));
          mkCall 0 Sample.student3 (LeaveStudyGroup 100%nat)]
         Sample.noSlots).
Proof.
  split; [exact noSlots_initial|].
  apply (X16_groups_well_formed 0 _ Sample.noSlots noSlots_initial).
Defined.

(** The user documents after [$push] and [$pull] of a group id. *)
Lemma users_pushJoined (userId g : ObjectId) (db : DB) (u : ObjectId)
    (doc' : User.t) :
  users (StudyGroupRoutes.pushJoined userId g db) !! u = Some doc' →
  ∃ doc, users db !! u = Some doc
         ∧ User.joinedStudyGroups doc'
           = if decide (u = userId) then User.joinedStudyGroups doc ++ [g]
             else User.joinedStudyGroups doc.
Proof.
  simpl. destruct (decide (u = userId)) as [-> | Hne].
  - rewrite lookup_alter_eq.
    destruct (users db !! userId) as [doc|]; [|discriminate].
    intros [= <-]. by exists doc.
  - rewrite lookup_alter_ne by done. intros Hu. by exists doc'.
Qed.

Lemma users_pullJoined (userId g : ObjectId) (db : DB) (u : ObjectId)
    (doc' : User.t) :
  users (StudyGroupRoutes.pullJoined userId g db) !! u = Some doc' →
  ∃ doc, users db !! u = Some doc
         ∧ User.joinedStudyGroups doc'
           = if decide (u = userId)
             then filter (λ x, x ≠ g) (User.joinedStudyGroups doc)
             else User.joinedStudyGroups doc.
Proof.
  simpl. destruct (decide (u = userId)) as [-> | Hne].
  - rewrite lookup_alter_eq.
    destruct (users db !! userId) as [doc|]; [|discriminate].
    intros [= <-]. by exists doc.
  - rewrite lookup_alter_ne by done. intros Hu. by exists doc'.
Qed.

(** One request keeps the back-references of the groups consistent. *)
Lemma handle_joinedConsistent (now tz : Z) (user : AuthUser) (r : Request)
    (db : DB) :
  freshIds db → joinedConsistent db →
  joinedConsistent (handle now tz user r db).1.
Proof.
  intros Hf Hc u doc' gid.
  destruct (handle_studyGroups now tz user r db)
    as [[Hg Hu] | [(req & _ & -> & ->)
       | [(j & gj & _ & Hj & _ & Hnew & -> & ->)
       | [(j & gj & _ & Hj & Hne & -> & ->)
       | [(j & req & gj & _ & Hj & _ & -> & ->)
       | (j & gj & _ & Hj & Hcr & Hall & -> & ->)]]]]].
  - intros Hdoc'. rewrite Hg. specialize (Hu u). rewrite Hdoc' in Hu.
    destruct (users db !! u) as [doc|] eqn:Hdoc; [|discriminate].
    simpl in Hu. injection Hu as ->. by apply Hc.
  - intros (doc & Hdoc & ->)%users_pushJoined.
    specialize (Hc u doc gid Hdoc).
    assert (Hnone : studyGroups db !! nextId db = None)
      by (by destruct (Hf (nextId db) ltac:(lia)) as (_ & _ & ?)).
    destruct (decide (gid = nextId db)) as [-> | Hgid].
    + rewrite lookup_insert_eq. destruct (decide (u = id user)) as [-> | Hu].
      * split; [|intros _; apply elem_of_app; right; left].
        intros _. eexists. split; [done|]. simpl. left.
      * split.
        -- intros (g & Hg & _)%Hc. congruence.
        -- intros (g & [= <-] & Hin). simpl in Hin.
           apply list_elem_of_singleton in Hin. done.
    + rewrite lookup_insert_ne by done. rewrite <- Hc.
      destruct (decide (u = id user)); [|done].
      rewrite elem_of_app, list_elem_of_singleton. tauto.
  - intros (doc & Hdoc & ->)%users_pushJoined.
    specialize (Hc u doc gid Hdoc).
    destruct (decide (gid = j)) as [-> | Hgid].
    + rewrite lookup_insert_eq. destruct (decide (u = id user)) as [-> | Hu].
      * split; [|intros _; apply elem_of_app; right; left].
        intros _. eexists. split; [done|]. simpl.
        apply elem_of_app; right; left.
      * rewrite Hc. split.
        -- intros (g & Hg & Hin). rewrite Hj in Hg. injection Hg as <-.
           eexists. split; [done|]. simpl. apply elem_of_app. by left.
        -- intros (g & [= <-] & Hin). simpl in Hin.
           apply elem_of_app in Hin as [Hin | Hin].
           ++ by exists gj.
           ++ apply list_elem_of_singleton in Hin. done.
    + rewrite lookup_insert_ne by done. rewrite <- Hc.
      destruct (decide (u = id user)); [|done].
      rewrite elem_of_app, list_elem_of_singleton. tauto.
  - intros (doc & Hdoc & ->)%users_pullJoined.
    specialize (Hc u doc gid Hdoc).
    destruct (decide (gid = j)) as [-> | Hgid].
    + rewrite lookup_insert_eq. destruct (decide (u = id user)) as [-> | Hu].
      * rewrite list_elem_of_filter. split; [tauto|].
        intros (g & [= <-] & Hin). simpl in Hin.
        apply list_elem_of_filter in Hin. tauto.
      * rewrite Hc. split.
        -- intros (g & Hg & Hin). rewrite Hj in Hg. injection Hg as <-.
           eexists. split; [done|]. simpl. by apply list_elem_of_filter.
        -- intros (g & [= <-] & Hin). simpl in Hin.
           apply list_elem_of_filter in Hin as [_ Hin]. by exists gj.
    + rewrite lookup_insert_ne by done. rewrite <- Hc.
      destruct (decide (u = id user)); [|done].
      rewrite list_elem_of_filter. tauto.
  - intros Hdoc. rewrite (Hc u doc' gid Hdoc).
    destruct (decide (gid = j)) as [-> | Hgid].
    + rewrite lookup_insert_eq. split.
      * intros (g & Hg & Hin). rewrite Hj in Hg. injection Hg as <-.
        by eexists.
      * intros (g & [= <-] & Hin). by exists gj.
    + by rewrite lookup_insert_ne.
  - intros (doc & Hdoc & ->)%users_pullJoined.
    specialize (Hc u doc gid Hdoc).
    destruct (decide (gid = j)) as [-> | Hgid].
    + rewrite lookup_delete_eq. destruct (decide (u = id user)) as [-> | Hu].
      * rewrite list_elem_of_filter. split; [tauto|].
        intros (g & Hg & _). discriminate.
      * rewrite Hc. split.
        -- intros (g & Hg & Hin). rewrite Hj in Hg. injection Hg as <-.
           by apply Hall in Hin.
        -- intros (g & Hg & _). discriminate.
    + rewrite lookup_delete_ne by done. rewrite <- Hc.
      destruct (decide (u = id user)); [|done].
      rewrite list_elem_of_filter. tauto.
Qed.

(** X17.  The study-group routes keep [joinedStudyGroups] consistent with
    the groups: in every store reached from an initial one by any sequence
    of requests, a user document lists a group exactly when that group
    exists and has the user among its participants. *)
Theorem X17_joined_lists_consistent (tz : Z) (calls : list Call) (db : DB) :
  initial db → joinedConsistent (serve tz calls db).
Proof.
  intros Hinit.
  assert (H0 : freshIds db ∧ joinedConsistent db).
  { split; [by apply initial_freshIds|].
    intros u doc gid Hdoc. destruct Hinit as (_ & _ & Hg & Hj).
    rewrite (Hj u doc Hdoc), Hg. split; [by intros ?%elem_of_nil|].
    intros (g & Hlook & _). by rewrite lookup_empty in Hlook. }
  clear Hinit. revert db H0.
  induction calls as [|c calls IH]; intros db [Hf Hc]; [done|].
  simpl. apply IH. split;
    [by apply handle_freshIds | by apply handle_joinedConsistent].
Qed.

Lemma X17_joined_lists_consistent_witness :
  initial Sample.noSlots
  ∧ joinedConsistent
      (serve 0
         [mkCall 0 Sample.student3
            (PostStudyGroup
               (StudyGroupRoutes.mkPostReq "Algebra" "Math" "Weekly"
                  "2030-01-07" "18:00" 60));
          mkCall 0 Sample.student3 (DeleteStudyGroup 100%nat)]
         Sample.noSlots).
Proof.
  split; [exact noSlots_initial|].
  apply (X17_joined_lists_consistent 0 _ Sample.noSlots noSlots_initial).
Defined.

(** ** Study groups: repeated and reversed requests *)

(** A successful join, spelled out. *)
Lemma joinStudyGroup_ok (user : AuthUser) (groupId : ObjectId) (db : DB) :
  code (StudyGroupRoutes.joinStudyGroup user groupId db).2 = 200%nat →
  ∃ g, studyGroups db !! groupId = Some g
       ∧ role user = "student"
       ∧ StudyGroup.creator g ≠ id user
       ∧ (id user ∉ StudyGroup.participants g)
       ∧ (StudyGroupRoutes.joinStudyGroup user groupId db).1
         = StudyGroupRoutes.pushJoined (id user) groupId
             (with_studyGroups
                (insert groupId
                   (StudyGroupRoutes.setParticipants
                      (StudyGroup.participants g ++ [id user]) g)) db).
Proof.
  unfold StudyGroupRoutes.joinStudyGroup.
  destruct (studyGroups db !! groupId) as [g|]; [|discriminate].
  destruct (decide (role user ≠ "student")) as [|Hr]; [discriminate|].
  apply dec_stable in Hr.
  destruct (decide _); [discriminate|].
  destruct (decide _); [discriminate|].
  intros _. by exists g.
Qed.

(** A successful leave, spelled out. *)
Lemma leaveStudyGroup_ok (user : AuthUser) (groupId : ObjectId) (db : DB) :
  code (StudyGroupRoutes.leaveStudyGroup user groupId db).2 = 200%nat →
  ∃ g, studyGroups db !! groupId = Some g
       ∧ role user = "student"
       ∧ StudyGroup.creator g ≠ id user
       ∧ id user ∈ StudyGroup.participants g
       ∧ (StudyGroupRoutes.leaveStudyGroup user groupId db).1
         = StudyGroupRoutes.pullJoined (id user) groupId
             (with_studyGroups
                (insert groupId
                   (StudyGroupRoutes.setParticipants
                      (filter (λ participant, participant ≠ id user)
                              (StudyGroup.participants g)) g)) db).
Proof.
  unfold StudyGroupRoutes.leaveStudyGroup.
  destruct (studyGroups db !! groupId) as [g|]; [|discriminate].
  destruct (decide (role user ≠ "student")) as [|Hr]; [discriminate|].
  apply dec_stable in Hr.
  destruct (decide _); [discriminate|].
  destruct (decide (id user ∉ StudyGroup.participants g)) as [|Hin];
    [discriminate|].
  apply dec_stable in Hin. intros _. by exists g.
Qed.

(** X18.  Joining and leaving cannot be repeated: right after a successful
    join, a second join by the same student is refused with 400 (already a
    participant); right after a successful leave, a second leave is refused
    with 400 (not a participant).  The refused request changes nothing. *)
Theorem X18_no_double_join_or_leave (user : AuthUser) (groupId : ObjectId)
    (db : DB) :
  (code (StudyGroupRoutes.joinStudyGroup user groupId db).2 = 200%nat →
   let db1 := (StudyGroupRoutes.joinStudyGroup user groupId db).1 in
   StudyGroupRoutes.joinStudyGroup user groupId db1
   = (db1, Res 400 (Message "You are already a participant")))
  ∧ (code (StudyGroupRoutes.leaveStudyGroup user groupId db).2 = 200%nat →
     let db1 := (StudyGroupRoutes.leaveStudyGroup user groupId db).1 in
     StudyGroupRoutes.leaveStudyGroup user groupId db1
     = (db1, Res 400 (Message "You are not a participant"))).
Proof.
  split.
  - intros (g & Hg & Hrole & Hcr & Hnew & ->)%joinStudyGroup_ok. simpl.
    unfold StudyGroupRoutes.joinStudyGroup at 1. simpl.
    rewrite lookup_insert_eq.
    destruct (decide (role user ≠ "student")); [congruence|].
    simpl. destruct (decide (StudyGroup.creator g = id user)); [congruence|].
    destruct (decide _) as [|Hout]; [done|].
    exfalso. apply Hout, elem_of_app. right. left.
  - intros (g & Hg & Hrole & Hcr & Hin & ->)%leaveStudyGroup_ok. simpl.
    unfold StudyGroupRoutes.leaveStudyGroup at 1. simpl.
    rewrite lookup_insert_eq.
    destruct (decide (role user ≠ "student")); [congruence|].
    simpl. destruct (decide (StudyGroup.creator g = id user)); [congruence|].
    destruct (decide _) as [|Hstill]; [done|].
    exfalso. apply Hstill. rewrite list_elem_of_filter. tauto.
Qed.

Lemma X18_no_double_join_or_leave_witness :
  code (StudyGroupRoutes.joinStudyGroup Sample.student4 31%nat
          Sample.oneMember).2 = 200%nat
  ∧ code (StudyGroupRoutes.joinStudyGroup Sample.student4 31%nat
            Scenario.joined).2 = 400%nat.
Proof.
  split; [reflexivity|].
  destruct (X18_no_double_join_or_leave Sample.student4 31%nat
              Sample.oneMember) as [Hjoin _].
  specialize (Hjoin eq_refl).
  apply (f_equal (λ x : DB * Response, code x.2)) in Hjoin. exact Hjoin.
Defined.

(** X19.  DELETE of an existing group succeeds exactly when the requester
    is its creator and every participant is the creator; the requester's
    role is not looked at.  On success the group is gone and the other
    groups are as before. *)
Theorem X19_delete_group (user : AuthUser) (groupId : ObjectId) (db : DB)
    (g : StudyGroup.t) :
  studyGroups db !! groupId = Some g →
  let run := StudyGroupRoutes.deleteStudyGroup user groupId db in
  (code run.2 = 200%nat
   ↔ StudyGroup.creator g = id user
     ∧ ∀ p, p ∈ StudyGroup.participants g → p = id user)
  ∧ (code run.2 = 200%nat →
     studyGroups run.1 !! groupId = None
     ∧ ∀ j, j ≠ groupId → studyGroups run.1 !! j = studyGroups db !! j)
  ∧ (code run.2 ≠ 200%nat → run.1 = db).
Proof.
  intros Hg run. subst run. unfold StudyGroupRoutes.deleteStudyGroup.
  rewrite Hg.
  destruct (decide (StudyGroup.creator g ≠ id user)) as [Hc | Hc].
  { simpl. split; [split; [discriminate | tauto]|]. split; [discriminate|done]. }
  apply dec_stable in Hc.
  destruct (decide (0 < length (filter (λ participant, participant ≠ id user)
                                   (StudyGroup.participants g)))%nat)
    as [Hlen | Hlen].
  - simpl. split; [split; [discriminate|]|split; [discriminate|done]].
    intros [_ Hall]. exfalso.
    destruct (filter _ _) as [|p l] eqn:E; [simpl in Hlen; lia|].
    assert (Hin : p ∈ p :: l) by left. rewrite <- E in Hin.
    apply list_elem_of_filter in Hin as [Hne Hin]. by apply Hne, Hall.
  - simpl. split; [split; [|done]|split; [|done]].
    + intros _. split; [done|]. intros p Hp.
      destruct (decide (p = id user)) as [|Hne]; [done|].
      exfalso. apply Hlen.
      assert (Hin : p ∈ filter (λ participant, participant ≠ id user)
                         (StudyGroup.participants g))
        by (by apply list_elem_of_filter).
      destruct (filter _ _); [by apply elem_of_nil in Hin | simpl; lia].
    + intros _. split; [apply lookup_delete_eq|].
      intros j Hj. by apply lookup_delete_ne.
Qed.

(** Group 30 has a second participant: its creator cannot delete it. *)
Lemma X19_delete_group_witness :
  studyGroups Sample.twoMembers !! 30%nat = Some Sample.group30
  ∧ code (StudyGroupRoutes.deleteStudyGroup Sample.student3 30%nat
            Sample.twoMembers).2 ≠ 200%nat.
Proof.
  split; [reflexivity|].
  destruct (X19_delete_group Sample.student3 30%nat Sample.twoMembers
              Sample.group30 eq_refl) as [Hiff _].
  intros [_ Hall]%Hiff. specialize (Hall 4%nat).
  assert (H4 : 4%nat ∈ StudyGroup.participants Sample.group30)
    by (right; left).
  specialize (Hall H4). discriminate Hall.
Defined.

(** X20.  Once a group has more than one participant, no PATCH changes its
    subject, date or time, whatever the body and whoever the requester:
    after the request the group is stored with the same subject, date and
    time.  A PATCH never changes the title, the creator or the
    participants of a group. *)
Theorem X20_lock_holds (user : AuthUser) (groupId : ObjectId)
    (req : StudyGroupRoutes.PatchReq) (db : DB) (g : StudyGroup.t) :
  studyGroups db !! groupId = Some g →
  ∃ g', studyGroups
          (StudyGroupRoutes.patchStudyGroup user groupId req db).1 !! groupId
        = Some g'
        ∧ StudyGroup.title g' = StudyGroup.title g
        ∧ StudyGroup.creator g' = StudyGroup.creator g
        ∧ StudyGroup.participants g' = StudyGroup.participants g
        ∧ ((1 < length (StudyGroup.participants g))%nat →
           StudyGroup.subject g' = StudyGroup.subject g
           ∧ StudyGroup.date g' = StudyGroup.date g
           ∧ StudyGroup.time g' = StudyGroup.time g).
Proof.
  intros Hg. unfold StudyGroupRoutes.patchStudyGroup. rewrite Hg.
  destruct (decide _); [exists g; tauto|].
  destruct (bool_decide (1 < length (StudyGroup.participants g))%nat) eqn:Hlen;
    simpl.
  - destruct (supplied (StudyGroupRoutes.p_subject req)) eqn:Hs;
      [exists g; tauto|].
    destruct (supplied (StudyGroupRoutes.p_date req)) eqn:Hd;
      [exists g; tauto|].
    destruct (supplied (StudyGroupRoutes.p_time req)) eqn:Ht;
      [exists g; tauto|].
    simpl. eexists. rewrite lookup_insert_eq. split; [done|].
    unfold StudyGroupRoutes.applyPatch. simpl. by rewrite Hs, Hd, Ht.
  - eexists. rewrite lookup_insert_eq. split; [done|].
    simpl. repeat split; try done;
      apply bool_decide_eq_false in Hlen; intros; lia.
Qed.

Lemma X20_lock_holds_witness :
  studyGroups Sample.twoMembers !! 30%nat = Some Sample.group30
  ∧ ∃ g', studyGroups
            (StudyGroupRoutes.patchStudyGroup Sample.student3 30%nat
               (StudyGroupRoutes.mkPatchReq (Some EmptyString) None None None
                  (Some 90)) Sample.twoMembers).1 !! 30%nat = Some g'
          ∧ StudyGroup.subject g' = "Math".
Proof.
  split; [reflexivity|].
  destruct (X20_lock_holds Sample.student3 30%nat
              (StudyGroupRoutes.mkPatchReq (Some EmptyString) None None None
                 (Some 90)) Sample.twoMembers Sample.group30 eq_refl)
    as (g' & Hg' & _ & _ & _ & Hlock).
  exists g'. split; [exact Hg'|].
  destruct Hlock as [-> _]; [simpl; lia | reflexivity].
Defined.

(** X21.  Creating a group and deleting it is a round trip: a student
    creates a group under an unused identifier that the student's document
    does not list, and deletes it; the deletion succeeds and the groups and
    the user documents are those before the creation. *)
Theorem X21_create_then_delete (user : AuthUser)
    (req : StudyGroupRoutes.PostReq) (db : DB) :
  role user = "student" →
  studyGroups db !! nextId db = None →
  (∀ doc, users db !! id user = Some doc →
          nextId db ∉ User.joinedStudyGroups doc) →
  let db1 := (StudyGroupRoutes.postStudyGroup user req db).1 in
  let run := StudyGroupRoutes.deleteStudyGroup user (nextId db) db1 in
  run.2 = Res 200 (Message "Study group deleted successfully")
  ∧ studyGroups run.1 = studyGroups db
  ∧ users run.1 = users db.
Proof.
  intros Hrole Hnone Hlist db1 run. subst run db1.
  unfold StudyGroupRoutes.postStudyGroup.
  destruct (decide (role user ≠ "student")); [congruence|]. simpl.
  unfold StudyGroupRoutes.deleteStudyGroup. simpl.
  rewrite lookup_insert_eq. simpl.
  destruct (decide (id user ≠ id user)); [done|].
  rewrite filter_cons_False by tauto. rewrite filter_nil. simpl.
  split; [done|]. split; [by apply delete_insert_id|].
  rewrite alter_alter_eq. apply alter_id. intros [l j] Hdoc. simpl.
  f_equal. apply filter_after_push. apply (Hlist _ Hdoc).
Qed.

Lemma X21_create_then_delete_witness :
  role Sample.student3 = "student"
  ∧ studyGroups Sample.noSlots !! 100%nat = None
  ∧ users
      (StudyGroupRoutes.deleteStudyGroup Sample.student3 100%nat
         (StudyGroupRoutes.postStudyGroup Sample.student3
            (StudyGroupRoutes.mkPostReq "Algebra" "Math" "Weekly"
               "2030-01-07" "18:00" 60) Sample.noSlots).1).1
    = users Sample.noSlots.
Proof.
  split; [reflexivity|]. split; [reflexivity|].
  apply (X21_create_then_delete Sample.student3
           (StudyGroupRoutes.mkPostReq "Algebra" "Math" "Weekly"
              "2030-01-07" "18:00" 60) Sample.noSlots eq_refl eq_refl).
  intros doc Hdoc. simpl in Hdoc.
  rewrite lookup_insert_ne in Hdoc by discriminate.
  apply lookup_singleton_Some in Hdoc as [_ <-]. apply not_elem_of_nil.
Defined.

(** Moving an element of a duplicate-free list to its end permutes it. *)
Lemma filter_then_push (participants : list ObjectId) (u : ObjectId) :
  NoDup participants → u ∈ participants →
  filter (λ participant, participant ≠ u) participants ++ [u] ≡ₚ participants.
Proof.
  induction 1 as [|p ps Hp Hnd IH]; [by intros ?%elem_of_nil|].
  intros [Heq | Hin]%elem_of_cons.
  - subst p. rewrite filter_cons_False by tauto.
    assert (Hsame : filter (λ participant, participant ≠ u) ps = ps).
    { clear IH Hnd. induction ps as [|q qs IHq]; [done|].
      apply not_elem_of_cons in Hp as [Hne Hq].
      rewrite filter_cons_True by congruence. by rewrite IHq. }
    rewrite Hsame. symmetry. apply Permutation_cons_append.
  - assert (Hne : p ≠ u) by (intros ->; done).
    rewrite filter_cons_True by done. simpl. by rewrite IH.
Qed.

(** X22.  Leaving and joining again is not the identity on the list, but
    keeps the members: for a group without repeated participants, after a
    participant other than the creator leaves and joins again, both
    requests succeed, the participants are a permutation of the original
    ones and the student is the last of them. *)
Theorem X22_leave_then_join (user : AuthUser) (groupId : ObjectId) (db : DB)
    (g : StudyGroup.t) :
  studyGroups db !! groupId = Some g →
  role user = "student" →
  StudyGroup.creator g ≠ id user →
  id user ∈ StudyGroup.participants g →
  NoDup (StudyGroup.participants g) →
  let left := StudyGroupRoutes.leaveStudyGroup user groupId db in
  let joined := StudyGroupRoutes.joinStudyGroup user groupId left.1 in
  code left.2 = 200%nat ∧ code joined.2 = 200%nat
  ∧ ∃ g2, studyGroups joined.1 !! groupId = Some g2
          ∧ StudyGroup.participants g2 ≡ₚ StudyGroup.participants g
          ∧ last (StudyGroup.participants g2) = Some (id user).
Proof.
  intros Hg Hrole Hcr Hin Hnd left joined. subst joined left.
  unfold StudyGroupRoutes.leaveStudyGroup. rewrite Hg.
  destruct (decide (role user ≠ "student")); [congruence|].
  destruct (decide (StudyGroup.creator g = id user)); [congruence|].
  destruct (decide (id user ∉ StudyGroup.participants g)); [done|].
  simpl. split; [done|].
  unfold StudyGroupRoutes.joinStudyGroup. simpl. rewrite lookup_insert_eq.
  destruct (decide (role user ≠ "student")); [congruence|]. simpl.
  destruct (decide (StudyGroup.creator g = id user)); [congruence|].
  destruct (decide _) as [Hstill | _].
  { apply list_elem_of_filter in Hstill. tauto. }
  simpl. split; [done|]. eexists. rewrite lookup_insert_eq.
  split; [done|]. simpl. split; [by apply filter_then_push|].
  apply last_snoc.
Qed.

Lemma X22_leave_then_join_witness :
  studyGroups Sample.twoMembers !! 30%nat = Some Sample.group30
  ∧ role Sample.student4 = "student"
  ∧ code (StudyGroupRoutes.joinStudyGroup Sample.student4 30%nat
            (StudyGroupRoutes.leaveStudyGroup Sample.student4 30%nat
               Sample.twoMembers).1).2 = 200%nat.
Proof.
  split; [reflexivity|]. split; [reflexivity|].
  assert (Hin : 4%nat ∈ StudyGroup.participants Sample.group30)
    by (right; left).
  assert (Hnd : NoDup (StudyGroup.participants Sample.group30)).
  { simpl. apply NoDup_cons. split.
    - intros [=]%list_elem_of_singleton.
    - apply NoDup_singleton. }
  apply (X22_leave_then_join Sample.student4 30%nat Sample.twoMembers
           Sample.group30 eq_refl eq_refl ltac:(discriminate) Hin Hnd).
Defined.

(** ** Who can write what *)

(** X23.  Only tutors write slots: a request by a requester whose role is
    not tutor, to any of the write routes, leaves the slot collection as
    it was. *)
Theorem X23_only_tutors_write_slots (now tz : Z) (user : AuthUser)
    (r : Request) (db : DB) :
  role user ≠ "tutor" →
  availabilities (handle now tz user r db).1 = availabilities db.
Proof.
  intros Hrole.
  destruct r as [availability | availabilityId req | availabilityId
                | req | bookingId req | req | groupId | groupId
                | groupId req | groupId]; unfold handle.
  - unfold TutorRoutes.postAvailability. by destruct (decide _).
  - unfold TutorRoutes.patchAvailability. by destruct (decide _).
  - unfold TutorRoutes.deleteAvailability. by destruct (decide _).
  - unfold BookingRoutes.postBooking. by destruct (decide _).
  - by destruct (patchBooking_bookings user bookingId req db)
      as [-> | (b & b0 & b' & _ & _ & _ & ->)].
  - unfold StudyGroupRoutes.postStudyGroup. by destruct (decide _).
  - unfold StudyGroupRoutes.joinStudyGroup.
    destruct (studyGroups db !! groupId); [|done].
    by repeat (destruct (decide _); [done|]).
  - unfold StudyGroupRoutes.leaveStudyGroup.
    destruct (studyGroups db !! groupId); [|done].
    by repeat (destruct (decide _); [done|]).
  - unfold StudyGroupRoutes.patchStudyGroup.
    destruct (studyGroups db !! groupId); [|done].
    destruct (decide _); [done|]. by destruct (_ && _).
  - unfold StudyGroupRoutes.deleteStudyGroup.
    destruct (studyGroups db !! groupId); [|done].
    by repeat (destruct (decide _); [done|]).
Qed.

Lemma X23_only_tutors_write_slots_witness :
  role Sample.student3 ≠ "tutor"
  ∧ availabilities
      (handle 0 0 Sample.student3 (DeleteAvailability 10%nat)
         Sample.oneSlot).1
    = availabilities Sample.oneSlot.
Proof.
  assert (Hrole : role Sample.student3 ≠ "tutor") by discriminate.
  split; [exact Hrole|].
  apply (X23_only_tutors_write_slots 0 0 Sample.student3
           (DeleteAvailability 10%nat) Sample.oneSlot Hrole).
Defined.

(** X24.  Only students create bookings and groups and change
    memberships: after a request by a requester whose role is not student,
    to any of the write routes, every stored booking was stored before,
    and every stored group was stored before with the same participants. *)
Theorem X24_only_students_book_and_join (now tz : Z) (user : AuthUser)
    (r : Request) (db : DB) :
  role user ≠ "student" →
  let db' := (handle now tz user r db).1 in
  (∀ i, is_Some (tutorBookings db' !! i) → is_Some (tutorBookings db !! i))
  ∧ (∀ i g', studyGroups db' !! i = Some g' →
       ∃ g, studyGroups db !! i = Some g
            ∧ StudyGroup.participants g' = StudyGroup.participants g).
Proof.
  intros Hrole db'. subst db'. split.
  - intros i.
    pose proof (handle_tutorBookings now tz user r db) as Hb. cbv zeta in Hb.
    destruct r as [availability | availabilityId req | availabilityId
                  | req | bookingId req | req | groupId | groupId
                  | groupId req | groupId];
      try (destruct Hb as [-> | [(req' & [=] & _)
                | (j & req' & bj & b0 & b' & [=] & _)]]; done); clear Hb.
    + unfold handle, BookingRoutes.postBooking. by destruct (decide _).
    + unfold handle.
      destruct (patchBooking_bookings user bookingId req db)
        as [-> | (b & b0 & b' & Hb & _ & _ & ->)]; [done|].
      simpl. rewrite lookup_insert_is_Some. intros [<- | [_ ?]]; [|done].
      by eexists.
  - intros i g'.
    pose proof (handle_studyGroups now tz user r db) as Hs. cbv zeta in Hs.
    destruct r as [availability | availabilityId req | availabilityId
                  | req | bookingId req | req | groupId | groupId
                  | groupId req | groupId];
      try (destruct Hs
             as [[-> _] | [(req' & [=] & _)
                | [(j & gj & [=] & _) | [(j & gj & [=] & _)
                | [(j & req' & gj & [=] & _) | (j & gj & [=] & _)]]]]];
           intros Hg'; by exists g'); clear Hs; unfold handle.
    + unfold StudyGroupRoutes.postStudyGroup.
      destruct (decide _); [|done]. intros Hg'. by exists g'.
    + unfold StudyGroupRoutes.joinStudyGroup.
      destruct (studyGroups db !! groupId); [|intros Hg'; by exists g'].
      destruct (decide _); [|done]. intros Hg'. by exists g'.
    + unfold StudyGroupRoutes.leaveStudyGroup.
      destruct (studyGroups db !! groupId); [|intros Hg'; by exists g'].
      destruct (decide _); [|done]. intros Hg'. by exists g'.
    + destruct (handle_studyGroups now tz user (PatchStudyGroup groupId req) db)
        as [[Hsame _] | [(req' & [=] & _)
           | [(j & gj & [=] & _) | [(j & gj & [=] & _)
           | [(j & req' & gj & [= <- <-] & Hj & _ & Hnew & _)
           | (j & gj & [=] & _)]]]]]; unfold handle in *.
      * rewrite Hsame. intros Hg'. by exists g'.
      * rewrite Hnew, lookup_insert_Some.
        intros [[<- <-] | [_ Hg']]; [by exists gj | by exists g'].
    + destruct (handle_studyGroups now tz user (DeleteStudyGroup groupId) db)
        as [[Hsame _] | [(req' & [=] & _)
           | [(j & gj & [=] & _) | [(j & gj & [=] & _)
           | [(j & req' & gj & [=] & _)
           | (j & gj & [= <-] & Hj & _ & _ & Hnew & _)]]]]];
        unfold handle in *.
      * rewrite Hsame. intros Hg'. by exists g'.
      * rewrite Hnew, lookup_delete_Some. intros [_ Hg']. by exists g'.
Qed.

Lemma X24_only_students_book_and_join_witness :
  role Sample.tutor1 ≠ "student"
  ∧ ∀ i, is_Some (tutorBookings
                    (handle 0 0 Sample.tutor1
                       (PostBooking (BookingRoutes.mkPostReq 1 "Math" 5))
                       Sample.oneSlot).1 !! i) →
         is_Some (tutorBookings Sample.oneSlot !! i).
Proof.
  assert (Hrole : role Sample.tutor1 ≠ "student") by discriminate.
  split; [exact Hrole|].
  apply (X24_only_students_book_and_join 0 0 Sample.tutor1
           (PostBooking (BookingRoutes.mkPostReq 1 "Math" 5))
           Sample.oneSlot Hrole).
Defined.

(** ** POST /api/tutors/availability: the accepted request *)

(** The loop, when it runs to its end: one new slot per element of the
    request, each stored for the tutor under a new identifier. *)
Lemma addSlots_created (now : Z) (tutorId : ObjectId)
    (availability : list TutorRoutes.SlotReq) :
  ∀ (createdSlots createdSlots' : list ObjectId) (db db' : DB),
    TutorRoutes.addSlots now tutorId availability createdSlots db
    = (db', inr createdSlots') →
    ∃ new, createdSlots' = createdSlots ++ new
           ∧ length new = length availability
           ∧ (nextId db ≤ nextId db')%nat
           ∧ (∀ i a, (i < nextId db)%nat → availabilities db !! i = Some a →
                     availabilities db' !! i = Some a)
           ∧ (∀ i, i ∈ new →
                (nextId db ≤ i)%nat
                ∧ ∃ a, availabilities db' !! i = Some a
                       ∧ Availability.tutor a = tutorId
                       ∧ Availability.isActive a = true).
Proof.
  induction availability as [|slot rest IH];
    intros createdSlots createdSlots' db db'; simpl.
  { intros [= <- <-]. exists []. rewrite app_nil_r.
    split; [done|]. split; [done|]. split; [done|]. split; [done|].
    intros j Hj. by apply elem_of_nil in Hj. }
  destruct (decide (TutorRoutes.startTime slot < now)); [discriminate|].
  destruct (decide (TutorRoutes.startTime slot < _)); [discriminate|].
  simpl. intros Hrun.
  destruct (IH _ _ _ _ Hrun) as (new & -> & Hlen & Hmono & Hkept & Hnew).
  simpl in *. exists (nextId db :: new).
  split; [by rewrite <- app_assoc|]. split; [simpl; by f_equal|].
  split; [lia|]. split.
  { intros i a Hi Ha. apply Hkept; [lia|]. by rewrite lookup_insert_ne by lia. }
  intros j Hj. apply elem_of_cons in Hj as [Hj | Hin].
  - subst j. split; [done|]. eexists.
    split; [apply Hkept; [lia | apply lookup_insert_eq] | done].
  - destruct (Hnew j Hin) as [Hge Ha]. split; [lia | done].
Qed.

(** X25.  An accepted request stores every slot it carries: when POST
    /availability answers 201, the response lists one new identifier per
    slot of the request, each names a stored active slot of the requester,
    and the requester's [tutoringAvailability] is extended by exactly
    those identifiers. *)
Theorem X25_accepted_request_stores_all (now : Z) (user : AuthUser)
    (availability : list TutorRoutes.SlotReq) (db : DB) :
  let run := TutorRoutes.postAvailability now user availability db in
  code run.2 = 201%nat →
  ∃ slots,
    run.2 = Res 201 (Slots "Availability added successfully" slots)
    ∧ length slots = length availability
    ∧ (∀ i, i ∈ slots →
         ∃ a, availabilities run.1 !! i = Some a
              ∧ Availability.tutor a = id user
              ∧ Availability.isActive a = true)
    ∧ (∀ doc, users db !! id user = Some doc →
         User.tutoringAvailability <$> users run.1 !! id user
         = Some (User.tutoringAvailability doc ++ slots)).
Proof.
  intros run. subst run. unfold TutorRoutes.postAvailability.
  destruct (decide _); [discriminate|].
  pose proof (addSlots_created now (id user) availability [] ) as Hcreated.
  pose proof (addSlots_frame now (id user) availability [] db) as Hframe.
  destruct (TutorRoutes.addSlots now (id user) availability [] db)
    as [db1 [early | createdSlots]] eqn:Hrun; simpl.
  { intros Hcode. exfalso. revert Hrun Hcode. clear.
    revert db. generalize (@nil ObjectId).
    induction availability as [|slot rest IH]; intros cs db; simpl;
      [discriminate|].
    destruct (decide _); [intros [= <- <-]; discriminate|].
    destruct (decide _); [intros [= <- <-]; discriminate|].
    apply IH. }
  intros _.
  destruct (Hcreated _ _ _ Hrun) as (new & -> & Hlen & _ & _ & Hnew).
  simpl in *. destruct Hframe as (Hu & _).
  exists new. split; [done|]. split; [done|]. split.
  - intros i Hi. by destruct (Hnew i Hi) as [_ ?].
  - intros doc Hdoc. rewrite lookup_alter_eq, Hu, Hdoc. done.
Qed.

Lemma X25_accepted_request_stores_all_witness :
  code (TutorRoutes.postAvailability (Sample.h 8 0) Sample.tutor1
          [Sample.nineToTen;
           TutorRoutes.mkSlotReq 0 "Biology" (Sample.h 10 0) (Sample.h 11 0)]
          Sample.noSlots).2 = 201%nat
  ∧ ∃ slots,
      (TutorRoutes.postAvailability (Sample.h 8 0) Sample.tutor1
         [Sample.nineToTen;
          TutorRoutes.mkSlotReq 0 "Biology" (Sample.h 10 0) (Sample.h 11 0)]
         Sample.noSlots).2
      = Res 201 (Slots "Availability added successfully" slots)
      ∧ length slots = 2%nat.
Proof.
  split; [reflexivity|].
  destruct (X25_accepted_request_stores_all (Sample.h 8 0) Sample.tutor1
              [Sample.nineToTen;
               TutorRoutes.mkSlotReq 0 "Biology" (Sample.h 10 0)
                 (Sample.h 11 0)]
              Sample.noSlots eq_refl) as (slots & Hres & Hlen & _).
  exists slots. split; [exact Hres | exact Hlen].
Defined.
